(** * merge_branch.py: the merge orchestration, embedded and verified

    The script drives git through the helper module [git_calls] (checkout,
    reset, pull, fetch, merge, ...).  The helpers are external: what they
    answer depends on the repository and on the network.  The script itself
    is a straight-line protocol with one loop, so it is embedded here as a
    finite interaction tree: every [print], every call of a [git_calls]
    helper and every activation of one of the script's own functions is a
    node, and an interpreter runs a tree against an arbitrary gateway.

    Python semantics assumed: byte strings (the script targets Python 2,
    see its [from __future__] import), assertions enabled (no [-O]). *)

From Stdlib Require Import ZArith List String Ascii Bool Lia.
From Stdlib Require Import Sorting.Sorted Sorting.Permutation DecimalString.
Import ListNotations.

Local Open Scope list_scope.
Local Open Scope string_scope.

(** ** Python values and string helpers *)

Module Py.

(** The two characters that cannot be written inside a literal. *)
Definition dq : string := String (ascii_of_nat 34) EmptyString.
Definition nl : string := String (ascii_of_nat 10) EmptyString.

(** Truth value of a [str]: only the empty string is false. *)
Definition truthy (s : string) : bool :=
  match s with
  | EmptyString => false
  | String _ _ => true
  end.

(** [a and b], [a or b] on strings: the operand that decides is returned. *)
Definition and_ (a b : string) : string := if truthy a then b else a.
Definition or_ (a b : string) : string := if truthy a then a else b.

(** [s * n] *)
Fixpoint times (s : string) (n : nat) : string :=
  match n with
  | O => EmptyString
  | S n' => s ++ times s n'
  end.

(** [sep.join(l)] *)
Definition join (sep : string) (l : list string) : string :=
  String.concat sep l.

(** [x in l] for a list (or set) of strings *)
Definition in_ (x : string) (l : list string) : bool :=
  existsb (String.eqb x) l.

(** [sorted(l)]: strings are ordered by their bytes.  Equal strings cannot be
    told apart, so every sorting algorithm gives the list Python gives. *)
Fixpoint insert (x : string) (l : list string) : list string :=
  match l with
  | [] => [x]
  | y :: l' => if (x <=? y)%string then x :: l else y :: insert x l'
  end.

Fixpoint sorted (l : list string) : list string :=
  match l with
  | [] => []
  | x :: l' => insert x (sorted l')
  end.


(** ['%d' % n] and ['%4d' % n] for a non-negative [n] *)
Definition fmt_d (n : nat) : string := NilEmpty.string_of_uint (Nat.to_uint n).

Definition fmt_4d (n : nat) : string :=
  let d := fmt_d n in
  times " " (4 - String.length d) ++ d.

(** [enumerate(l)] *)
Fixpoint enumerate_from {A : Type} (i : nat) (l : list A) : list (nat * A) :=
  match l with
  | [] => []
  | x :: l' => (i, x) :: enumerate_from (S i) l'
  end.

Definition enumerate {A : Type} (l : list A) : list (nat * A) :=
  enumerate_from 0 l.

(** [l[:-1]], [l[1:]] and [zip] *)
Definition init {A : Type} (l : list A) : list A := removelast l.
Definition rest {A : Type} (l : list A) : list A := tl l.
Definition zip {A B : Type} (l : list A) (l' : list B) : list (A * B) :=
  combine l l'.

(** [s.split()]: split at runs of white space, no empty fields. *)
Definition is_space (c : ascii) : bool :=
  let n := nat_of_ascii c in
  ((9 <=? n)%nat && (n <=? 13)%nat) || (n =? 32)%nat.

Fixpoint split_from (field s : string) : list string :=
  match s with
  | EmptyString => if truthy field then [field] else []
  | String c s' =>
      if is_space c
      then (if truthy field then field :: split_from EmptyString s'
            else split_from EmptyString s')
      else split_from (field ++ String c EmptyString) s'
  end.

Definition split (s : string) : list string := split_from EmptyString s.

End Py.

(** ** Results of the git helpers *)

(** [ExecResult]: what one git command gave back.  The script reads [ret]
    and [out]; [err] is only seen by [format_error]. *)
Record ExecResult : Type := mkExecResult {
  ret : Z;
  out : string;
  err : string
}.

(** The helpers of [git_calls] the script uses, indexed by what they return.
    [git_pull] and [git_merge] return [(conflicts, out_lines, exec_result)],
    [git_track_all] returns [(branch_list, exec_result)], [git_show_sha]
    returns [(sha, exec_result)]. *)
Inductive GitCall : Type -> Type :=
| lowpriority : GitCall unit
| git_debugging (debugging : bool) : GitCall unit
| git_config_set (key value : string) : GitCall ExecResult
| git_reset (target : string) : GitCall ExecResult
| git_fetch : GitCall ExecResult
| git_track_all (clean_branches : bool) : GitCall (list string * ExecResult)
| git_checkout (branch : string) (force : bool) : GitCall ExecResult
| git_pull (branch : string) : GitCall (list string * list string * ExecResult)
| git_show_sha : GitCall (string * ExecResult)
| git_merge (branch : string) : GitCall (list string * list string * ExecResult)
| git_show : GitCall ExecResult
| git_push (branch : string) : GitCall ExecResult.

(** ** Programs *)

Inductive Stream : Type := stdout | stderr.

(** Activations of the script's own functions.  They are ghost steps: the
    interpreter records them and does nothing else. *)
Inductive Activation : Type :=
| act_checkout_update_branch (branch : string)
| act_merge_branches (whence whither : string)
| act_merge_up (branch_list : list string).

Inductive Cmd : Type -> Type :=
| Print (file : Stream) (line : string) : Cmd unit
| Enter (a : Activation) : Cmd unit
| Git {X : Type} (c : GitCall X) : Cmd X.

(** [AssertionError(msg)], and the bare [AssertionError()] of [assert False] *)
Inductive Exn : Type :=
| AssertionError (msg : option string).

Inductive Prog (A : Type) : Type :=
| Ret (a : A)
| Raise (e : Exn)
| Vis {X : Type} (c : Cmd X) (k : X -> Prog A).

Arguments Ret {A} a.
Arguments Raise {A} e.
Arguments Vis {A X} c k.

Fixpoint bind {A B : Type} (m : Prog A) (f : A -> Prog B) : Prog B :=
  match m with
  | Ret a => f a
  | Raise e => Raise e
  | Vis c k => Vis c (fun x => bind (k x) f)
  end.

Definition trigger {X : Type} (c : Cmd X) : Prog X := Vis c Ret.

Declare Scope prog_scope.
Delimit Scope prog_scope with prog.
Notation "x <- m ;; k" := (bind m (fun x => k))
  (at level 61, m at next level, right associativity) : prog_scope.
Notation "m ;; k" := (bind m (fun _ => k))
  (at level 61, right associativity) : prog_scope.
Local Open Scope prog_scope.

Definition print (line : string) : Prog unit := trigger (Print stdout line).
Definition print_err (line : string) : Prog unit := trigger (Print stderr line).
Definition enter (a : Activation) : Prog unit := trigger (Enter a).
Definition git {X : Type} (c : GitCall X) : Prog X := trigger (Git c).

(** [assert cond, msg] and [assert cond] *)
Definition py_assert (cond : bool) (msg : option string) : Prog unit :=
  if cond then Ret tt else Raise (AssertionError msg).

(** [for x in l: body(x)] *)
Fixpoint for_each {A : Type} (l : list A) (body : A -> Prog unit) : Prog unit :=
  match l with
  | [] => Ret tt
  | x :: l' => body x ;; for_each l' body
  end.

(** ** The script *)

(** The module docstring, printed by [merge_branches] as [__doc__]. *)
Definition __doc__ : string :=
  Py.nl ++ "    Merge one git branch to another and optionally push to origin" ++ Py.nl.

(** The options object that [parser.parse_args()] hands to [main]; optparse
    itself is not part of the script. *)
Module options.
Record t : Type := mk {
  debugging : bool;
  do_push : bool;
  clean_branches : bool;
  whither : string;
  whence : string;
  branch_list_str : string
}.
End options.

Section Script.

(** [format_error(exec_result, failure=...)] of [git_calls]: a message built
    from a result; [None] stands for the keyword argument left out. *)
Variable format_error : ExecResult -> option string -> string.

Definition report_failure (msg : string) : Prog unit :=
  print_err (Py.times "!" 80) ;;
  print_err msg ;;
  print_err (Py.times "@" 80).

Definition check_error (condition : bool) (msg : string) : Prog unit :=
  (if negb condition then report_failure msg else Ret tt) ;;
  py_assert condition (Some msg).

Definition checkout_update_branch (branch : string) : Prog unit :=
  enter (act_checkout_update_branch branch) ;;
  exec_result <- git (git_checkout branch true) ;;
  check_error (ret exec_result =? 0)%Z (format_error exec_result None) ;;
  (* the result of git_reset is dropped; exec_result is still the checkout's *)
  git (git_reset ("origin/" ++ branch)) ;;
  check_error (ret exec_result =? 0)%Z (format_error exec_result None) ;;
  pulled <- git (git_pull branch) ;;
  let conflicts := fst (fst pulled) in
  let exec_result := snd pulled in
  check_error (ret exec_result =? 0)%Z
              (format_error exec_result (Some (Py.join Py.nl conflicts))).

Definition merge_branches (whence whither : string)
    (do_push clean_branches debugging : bool) : Prog unit :=
  enter (act_merge_branches whence whither) ;;
  print (Py.times "=" 80) ;;
  print __doc__ ;;
  print (Py.times "=" 80) ;;
  print ("merge_branches: " ++ Py.dq ++ whence ++ Py.dq ++ " -> "
           ++ Py.dq ++ whither ++ Py.dq) ;;
  git (git_debugging debugging) ;;
  exec_result <- git (git_config_set "merge.renameLimit" "999999") ;;
  check_error (ret exec_result =? 0)%Z (format_error exec_result None) ;;
  (* the result of git_reset is dropped; exec_result is still the config's *)
  git (git_reset "HEAD") ;;
  check_error (ret exec_result =? 0)%Z (format_error exec_result None) ;;
  exec_result <- git git_fetch ;;
  check_error (ret exec_result =? 0)%Z (format_error exec_result None) ;;
  tracked <- git (git_track_all clean_branches) ;;
  let branch_list := fst tracked in
  check_error (Py.truthy (Py.and_ whence whither))
              ("to and from branches required: from=" ++ Py.dq ++ whence ++ Py.dq
                 ++ ",to=" ++ Py.dq ++ whither ++ Py.dq) ;;
  check_error (Py.in_ whither branch_list)
              ("To branch " ++ Py.dq ++ whither ++ Py.dq ++ " not in branches" ++ Py.nl
                 ++ Py.join Py.nl (Py.sorted branch_list)) ;;
  check_error (Py.in_ whence branch_list)
              ("From branch " ++ Py.dq ++ whence ++ Py.dq ++ " not in branches" ++ Py.nl
                 ++ Py.join Py.nl (Py.sorted branch_list)) ;;
  checkout_update_branch whence ;;
  checkout_update_branch whither ;;
  shown <- git git_show_sha ;;
  let sha_before := fst shown in
  let exec_result := snd shown in
  check_error (ret exec_result =? 0)%Z (format_error exec_result None) ;;
  merged <- git (git_merge whence) ;;
  let conflicts := fst (fst merged) in
  let exec_result := snd merged in
  check_error (ret exec_result =? 0)%Z
              (format_error exec_result (Some (Py.join Py.nl conflicts))) ;;
  shown <- git git_show_sha ;;
  let sha_after := fst shown in
  let exec_result := snd shown in
  check_error (ret exec_result =? 0)%Z (format_error exec_result None) ;;
  print (Py.times "," 80) ;;
  print ("sha_before=" ++ sha_before) ;;
  print ("sha_after =" ++ sha_after) ;;
  print (Py.times "-" 80) ;;
  (if (sha_before =? sha_after)%string
   then print "No change"
   else exec_result <- git git_show ;; print (out exec_result)) ;;
  print (Py.times "=" 80) ;;
  (if do_push
   then py_assert false None ;;
        exec_result <- git (git_push whither) ;;
        check_error (ret exec_result =? 0)%Z (format_error exec_result None)
   else Ret tt).

(** [merge_list] of [merge_up]; the loop builds the same zip again. *)
Definition merge_list (branch_list : list string) : list (string * string) :=
  Py.zip (Py.init branch_list) (Py.rest branch_list).

Definition merge_up (branch_list : list string)
    (do_push clean_branches debugging : bool) : Prog unit :=
  enter (act_merge_up branch_list) ;;
  print ("Merging:" ++ Py.nl
           ++ Py.join (" ->" ++ Py.nl)
                (map (fun ib => Py.fmt_4d (fst ib) ++ ": " ++ Py.dq ++ snd ib ++ Py.dq)
                     (Py.enumerate branch_list))) ;;
  let merge_list := merge_list branch_list in
  print ("Planned merges:" ++ Py.nl
           ++ Py.join Py.nl
                (map (fun ibb => Py.fmt_4d (fst ibb) ++ ": " ++ Py.dq ++ fst (snd ibb)
                                   ++ Py.dq ++ " -> " ++ Py.dq ++ snd (snd ibb) ++ Py.dq)
                     (Py.enumerate merge_list))) ;;
  for_each (Py.enumerate (Py.zip (Py.init branch_list) (Py.rest branch_list)))
           (fun ibb => merge_branches (fst (snd ibb)) (snd (snd ibb))
                                      do_push clean_branches debugging).

(** [main], from the parsed options on. *)
Definition main (opts : options.t) : Prog unit :=
  git lowpriority ;;
  if Py.truthy (options.branch_list_str opts)
  then
    py_assert (negb (Py.truthy (Py.or_ (options.whence opts) (options.whither opts))))
              (Some "--up cannot be used with --to and --from") ;;
    let branch_list := Py.split (options.branch_list_str opts) in
    merge_up branch_list (options.do_push opts) (options.clean_branches opts)
             (options.debugging opts)
  else
    merge_branches (options.whence opts) (options.whither opts) (options.do_push opts)
                   (options.clean_branches opts) (options.debugging opts).

(** *** The stages of [merge_branches]

    The same statements again, cut at the points the properties below speak
    of, so that "the run got as far as ..." can be said of a run.
    [merge_branches_stages] shows that running them in sequence is running
    [merge_branches]. *)

(** Lines 49 to 69: banner, setup calls, fetch and track; gives [branch_list]. *)
Definition merge_branches_setup (whence whither : string)
    (clean_branches debugging : bool) : Prog (list string) :=
  enter (act_merge_branches whence whither) ;;
  print (Py.times "=" 80) ;;
  print __doc__ ;;
  print (Py.times "=" 80) ;;
  print ("merge_branches: " ++ Py.dq ++ whence ++ Py.dq ++ " -> "
           ++ Py.dq ++ whither ++ Py.dq) ;;
  git (git_debugging debugging) ;;
  exec_result <- git (git_config_set "merge.renameLimit" "999999") ;;
  check_error (ret exec_result =? 0)%Z (format_error exec_result None) ;;
  git (git_reset "HEAD") ;;
  check_error (ret exec_result =? 0)%Z (format_error exec_result None) ;;
  exec_result <- git git_fetch ;;
  check_error (ret exec_result =? 0)%Z (format_error exec_result None) ;;
  tracked <- git (git_track_all clean_branches) ;;
  Ret (fst tracked).

Definition msg_branches_required (whence whither : string) : string :=
  "to and from branches required: from=" ++ Py.dq ++ whence ++ Py.dq
    ++ ",to=" ++ Py.dq ++ whither ++ Py.dq.

Definition msg_to_not_in (whither : string) (branch_list : list string) : string :=
  "To branch " ++ Py.dq ++ whither ++ Py.dq ++ " not in branches" ++ Py.nl
    ++ Py.join Py.nl (Py.sorted branch_list).

Definition msg_from_not_in (whence : string) (branch_list : list string) : string :=
  "From branch " ++ Py.dq ++ whence ++ Py.dq ++ " not in branches" ++ Py.nl
    ++ Py.join Py.nl (Py.sorted branch_list).

(** Lines 71 to 78: the three checks on the branch names. *)
Definition merge_branches_checks (whence whither : string)
    (branch_list : list string) : Prog unit :=
  check_error (Py.truthy (Py.and_ whence whither))
              (msg_branches_required whence whither) ;;
  check_error (Py.in_ whither branch_list) (msg_to_not_in whither branch_list) ;;
  check_error (Py.in_ whence branch_list) (msg_from_not_in whence branch_list).

(** Lines 87 to 92: update both branches and take the SHA before the merge. *)
Definition merge_branches_update (whence whither : string) : Prog string :=
  checkout_update_branch whence ;;
  checkout_update_branch whither ;;
  shown <- git git_show_sha ;;
  let sha_before := fst shown in
  let exec_result := snd shown in
  check_error (ret exec_result =? 0)%Z (format_error exec_result None) ;;
  Ret sha_before.

(** Lines 95 to 100: the merge and the SHA after it; gives
    [(sha_before, sha_after)]. *)
Definition merge_branches_do_merge (whence sha_before : string) : Prog (string * string) :=
  merged <- git (git_merge whence) ;;
  let conflicts := fst (fst merged) in
  let exec_result := snd merged in
  check_error (ret exec_result =? 0)%Z
              (format_error exec_result (Some (Py.join Py.nl conflicts))) ;;
  shown <- git git_show_sha ;;
  let sha_after := fst shown in
  let exec_result := snd shown in
  check_error (ret exec_result =? 0)%Z (format_error exec_result None) ;;
  Ret (sha_before, sha_after).

(** Lines 87 to 100. *)
Definition merge_branches_merge (whence whither : string) : Prog (string * string) :=
  sha_before <- merge_branches_update whence whither ;;
  merge_branches_do_merge whence sha_before.

(** Lines 106 to 115: the report. *)
Definition merge_branches_report (sha_before sha_after : string) : Prog unit :=
  print (Py.times "," 80) ;;
  print ("sha_before=" ++ sha_before) ;;
  print ("sha_after =" ++ sha_after) ;;
  print (Py.times "-" 80) ;;
  (if (sha_before =? sha_after)%string
   then print "No change"
   else exec_result <- git git_show ;; print (out exec_result)) ;;
  print (Py.times "=" 80).

(** Lines 117 to 121: the push. *)
Definition merge_branches_push (do_push : bool) (whither : string) : Prog unit :=
  if do_push
  then py_assert false None ;;
       exec_result <- git (git_push whither) ;;
       check_error (ret exec_result =? 0)%Z (format_error exec_result None)
  else Ret tt.

(** Lines 87 to 121: what follows the checks. *)
Definition merge_branches_from_sync (whence whither : string) (do_push : bool)
  : Prog unit :=
  shas <- merge_branches_merge whence whither ;;
  merge_branches_report (fst shas) (snd shas) ;;
  merge_branches_push do_push whither.

(** The run up to the end of the checks, up to the report, and up to the push. *)
Definition merge_branches_to_sync (whence whither : string)
    (clean_branches debugging : bool) : Prog unit :=
  branch_list <- merge_branches_setup whence whither clean_branches debugging ;;
  merge_branches_checks whence whither branch_list.

Definition merge_branches_to_report (whence whither : string)
    (clean_branches debugging : bool) : Prog (string * string) :=
  merge_branches_to_sync whence whither clean_branches debugging ;;
  merge_branches_merge whence whither.

Definition merge_branches_to_push (whence whither : string)
    (clean_branches debugging : bool) : Prog unit :=
  shas <- merge_branches_to_report whence whither clean_branches debugging ;;
  merge_branches_report (fst shas) (snd shas).

End Script.

(** ** Running a program against a gateway *)

(** A gateway answers every helper call from its state of the world (the
    repository, the remote, the working tree) and moves to a new state. *)
Definition Gateway (W : Type) : Type := forall X : Type, GitCall X -> W -> X * W.

(** One executed step with the answer it got. *)
Inductive Event : Type :=
| Ev {X : Type} (c : Cmd X) (x : X).

Inductive Outcome (A : Type) : Type :=
| Returned (a : A)
| Raised (e : Exn).

Arguments Returned {A} a.
Arguments Raised {A} e.

Definition perform {W X : Type} (g : Gateway W) (c : Cmd X) (w : W) : X * W :=
  match c in Cmd X0 return X0 * W with
  | Print _ _ => (tt, w)
  | Enter _ => (tt, w)
  | Git gc => g _ gc w
  end.

(** [run g p w]: how [p] ended, the final world, and the steps executed. *)
Fixpoint run {W A : Type} (g : Gateway W) (p : Prog A) (w : W)
  : Outcome A * W * list Event :=
  match p with
  | Ret a => (Returned a, w, [])
  | Raise e => (Raised e, w, [])
  | Vis c k =>
      let xw := perform g c w in
      let r := run g (k (fst xw)) (snd xw) in
      (fst (fst r), snd (fst r), Ev c (fst xw) :: snd r)
  end.

Definition outcome {W A : Type} (r : Outcome A * W * list Event) : Outcome A := fst (fst r).
Definition world {W A : Type} (r : Outcome A * W * list Event) : W := snd (fst r).
Definition events {W A : Type} (r : Outcome A * W * list Event) : list Event := snd r.

(** Two programs that no run against [g] tells apart. *)
Definition same {W A : Type} (g : Gateway W) (p q : Prog A) : Prop :=
  forall w, run g p w = run g q w.

Definition failed {A : Type} (o : Outcome A) : bool :=
  match o with
  | Returned _ => false
  | Raised _ => true
  end.

(** *** Reading a list of events *)

Inductive AnyCall : Type :=
| call {X : Type} (c : GitCall X).

(** The helper calls made, in order. *)
Fixpoint git_calls (evs : list Event) : list AnyCall :=
  match evs with
  | [] => []
  | Ev (Git c) _ :: evs' => call c :: git_calls evs'
  | Ev _ _ :: evs' => git_calls evs'
  end.

(** The pairs for which [merge_branches] was entered, in order. *)
Fixpoint started_merges (evs : list Event) : list (string * string) :=
  match evs with
  | [] => []
  | Ev (Enter (act_merge_branches whence whither)) _ :: evs' =>
      (whence, whither) :: started_merges evs'
  | Ev _ _ :: evs' => started_merges evs'
  end.

(** The branches for which [checkout_update_branch] was entered, in order. *)
Fixpoint started_syncs (evs : list Event) : list string :=
  match evs with
  | [] => []
  | Ev (Enter (act_checkout_update_branch branch)) _ :: evs' =>
      branch :: started_syncs evs'
  | Ev _ _ :: evs' => started_syncs evs'
  end.

(** The lines printed, in order. *)
Fixpoint printed (evs : list Event) : list (Stream * string) :=
  match evs with
  | [] => []
  | Ev (Print file line) _ :: evs' => (file, line) :: printed evs'
  | Ev _ _ :: evs' => printed evs'
  end.

Definition is_merge_call (a : AnyCall) : bool :=
  match a with
  | call (git_merge _) => true
  | call _ => false
  end.

Definition is_push_call (a : AnyCall) : bool :=
  match a with
  | call (git_push _) => true
  | call _ => false
  end.

Definition is_show_call (a : AnyCall) : bool :=
  match a with
  | call git_show => true
  | call _ => false
  end.

Definition is_not_push_call (a : AnyCall) : bool := negb (is_push_call a).

(** Calls that [merge_branches] makes before it looks at the branch names. *)
Definition is_setup_call (a : AnyCall) : bool :=
  match a with
  | call (git_debugging _) => true
  | call (git_config_set _ _) => true
  | call (git_reset _) => true
  | call git_fetch => true
  | call (git_track_all _) => true
  | call _ => false
  end.

(** *** Properties of every step of a program *)

Definition CmdPred : Type := forall X : Type, Cmd X -> bool.

(** Every step a program can ever take satisfies [ok]. *)
Fixpoint all_steps {A : Type} (ok : CmdPred) (p : Prog A) : Prop :=
  match p with
  | Ret _ => True
  | Raise _ => True
  | Vis c k => ok _ c = true /\ forall x, all_steps ok (k x)
  end.

Definition ev_ok (ok : CmdPred) (ev : Event) : bool :=
  match ev with
  | Ev c _ => ok _ c
  end.

(** Helper calls are all of the kind [f]; prints and activations are free. *)
Definition calls_in (f : AnyCall -> bool) : CmdPred :=
  fun X c =>
    match c with
    | Git gc => f (call gc)
    | _ => true
    end.

(** No activation of [merge_branches]. *)
Definition not_entering_merge : CmdPred :=
  fun X c =>
    match c with
    | Enter (act_merge_branches _ _) => false
    | _ => true
    end.

(** What [report_failure msg] prints. *)
Definition failure_report (msg : string) : list Event :=
  [Ev (Print stderr (Py.times "!" 80)) tt;
   Ev (Print stderr msg) tt;
   Ev (Print stderr (Py.times "@" 80)) tt].

(** What the report prints before it compares the two SHA. *)
Definition report_head (sha_before sha_after : string) : list Event :=
  [Ev (Print stdout (Py.times "," 80)) tt;
   Ev (Print stdout ("sha_before=" ++ sha_before)) tt;
   Ev (Print stdout ("sha_after =" ++ sha_after)) tt;
   Ev (Print stdout (Py.times "-" 80)) tt].

(** The report of a merge that changed nothing. *)
Definition report_no_change (sha_before sha_after : string) : list Event :=
  (report_head sha_before sha_after
     ++ [Ev (Print stdout "No change") tt;
         Ev (Print stdout (Py.times "=" 80)) tt])%list.

(** The report of a merge that moved the branch: one [git_show], answered
    by [shown], and its output printed. *)
Definition report_log (sha_before sha_after : string) (shown : ExecResult) : list Event :=
  (report_head sha_before sha_after
     ++ [Ev (Git git_show) shown;
         Ev (Print stdout (out shown)) tt;
         Ev (Print stdout (Py.times "=" 80)) tt])%list.

(** What [merge_up] records and prints before its loop. *)
Definition merge_up_banner (branch_list : list string) : list Event :=
  [Ev (Enter (act_merge_up branch_list)) tt;
   Ev (Print stdout
         ("Merging:" ++ Py.nl
            ++ Py.join (" ->" ++ Py.nl)
                 (map (fun ib => Py.fmt_4d (fst ib) ++ ": " ++ Py.dq ++ snd ib ++ Py.dq)
                      (Py.enumerate branch_list)))) tt;
   Ev (Print stdout
         ("Planned merges:" ++ Py.nl
            ++ Py.join Py.nl
                 (map (fun ibb => Py.fmt_4d (fst ibb) ++ ": " ++ Py.dq ++ fst (snd ibb)
                                    ++ Py.dq ++ " -> " ++ Py.dq ++ snd (snd ibb) ++ Py.dq)
                      (Py.enumerate (Py.zip (Py.init branch_list) (Py.rest branch_list)))))) tt].

Definition count_calls (f : AnyCall -> bool) (evs : list Event) : nat :=
  List.length (filter f (git_calls evs)).

(** ** A scripted gateway for concrete runs *)

Module Demo.

Definition result (status : Z) : ExecResult :=
  mkExecResult status EmptyString EmptyString.

(** What the scripted repository does: the exit status of every call, the
    branches that tracking reports, and whether a merge makes a commit. *)
Record Scenario : Type := mkScenario {
  status : AnyCall -> Z;
  branches : list string;
  merge_commits : bool
}.

(** The world is the number of commits the merges have made so far; the SHA
    shown is made from it. *)
Definition gateway (sc : Scenario) : Gateway nat :=
  fun X c w =>
    match c in GitCall X0 return X0 * nat with
    | lowpriority => (tt, w)
    | git_debugging _ => (tt, w)
    | git_config_set k v => (result (status sc (call (git_config_set k v))), w)
    | git_reset t => (result (status sc (call (git_reset t))), w)
    | git_fetch => (result (status sc (call git_fetch)), w)
    | git_track_all cb =>
        ((branches sc, result (status sc (call (git_track_all cb)))), w)
    | git_checkout b f => (result (status sc (call (git_checkout b f))), w)
    | git_pull b => (([], [], result (status sc (call (git_pull b)))), w)
    | git_show_sha => (("sha" ++ Py.fmt_d w, result (status sc (call git_show_sha))), w)
    | git_merge b =>
        (([], [], result (status sc (call (git_merge b)))),
         if merge_commits sc then S w else w)
    | git_show => (mkExecResult (status sc (call git_show)) "log entry" EmptyString, w)
    | git_push b => (result (status sc (call (git_push b))), w)
    end.

Definition format_error (r : ExecResult) (failure : option string) : string :=
  match failure with
  | None => "git failed"
  | Some f => "git failed: " ++ f
  end.

Definition all_ok (a : AnyCall) : Z := 0%Z.

Definition reset_head_fails (a : AnyCall) : Z :=
  match a with
  | call (git_reset t) => if (t =? "HEAD")%string then 1%Z else 0%Z
  | call _ => 0%Z
  end.

Definition reset_origin_fails (a : AnyCall) : Z :=
  match a with
  | call (git_reset t) => if (t =? "HEAD")%string then 0%Z else 1%Z
  | call _ => 0%Z
  end.

Definition track_all_fails (a : AnyCall) : Z :=
  match a with
  | call (git_track_all _) => 1%Z
  | call _ => 0%Z
  end.

Definition checkout_fails (a : AnyCall) : Z :=
  match a with
  | call (git_checkout _ _) => 1%Z
  | call _ => 0%Z
  end.

Definition ab : list string := ["b"; "a"].

(** Everything succeeds, the branches are [b] and [a]; merges change nothing,
    or make a commit. *)
Definition quiet : Scenario := mkScenario all_ok ab false.
Definition busy : Scenario := mkScenario all_ok ab true.

(** Three branches, every merge makes a commit. *)
Definition chain : Scenario := mkScenario all_ok ["c"; "b"; "a"] true.

(** Every checkout fails. *)
Definition stuck : Scenario := mkScenario checkout_fails ab false.

Definition reset_whence_fails (a : AnyCall) : Z :=
  match a with
  | call (git_reset t) => if (t =? "origin/a")%string then 1%Z else 0%Z
  | call _ => 0%Z
  end.

(** One command exits with status 1, the others with 0. *)
Definition bad_reset_head : Scenario := mkScenario reset_head_fails ab false.
Definition bad_reset_origin : Scenario := mkScenario reset_origin_fails ab false.
Definition bad_reset_whence : Scenario := mkScenario reset_whence_fails ab false.
Definition bad_track_all : Scenario := mkScenario track_all_fails ab false.

End Demo.

(** ** The merge plan, as the specification words it *)


(** ** The order of the helper calls *)

(** The helper call a step makes, if it makes one. *)
Definition call_of {X : Type} (c : Cmd X) : option AnyCall :=
  match c with
  | Git gc => Some (call gc)
  | _ => None
  end.

(** The helper calls of [merge_branches] in the order of its text; the last
    one, [git_show], is made only when the merge moved the branch. *)
Definition protocol (whence whither : string) (clean_branches debugging : bool)
  : list AnyCall :=
  [call (git_debugging debugging);
   call (git_config_set "merge.renameLimit" "999999");
   call (git_reset "HEAD");
   call git_fetch;
   call (git_track_all clean_branches);
   call (git_checkout whence true);
   call (git_reset ("origin/" ++ whence));
   call (git_pull whence);
   call (git_checkout whither true);
   call (git_reset ("origin/" ++ whither));
   call (git_pull whither);
   call git_show_sha;
   call (git_merge whence);
   call git_show_sha;
   call git_show].

(** The calls left when a run that returns has made all the others. *)
Definition only_show_left (l : list AnyCall) : Prop :=
  l = [] \/ l = [call git_show].

(** Along every path of [p] the helper calls are the calls of [l], from its
    first on and in order; where [p] returns, the calls of [l] not made yet
    satisfy [done]. *)
Fixpoint follows {A : Type} (done : list AnyCall -> Prop) (l : list AnyCall)
    (p : Prog A) : Prop :=
  match p with
  | Ret _ => done l
  | Raise _ => True
  | Vis c k =>
      match call_of c with
      | Some a =>
          match l with
          | [] => False
          | a' :: l' => a' = a /\ forall x, follows done l' (k x)
          end
      | None => forall x, follows done l (k x)
      end
  end.

(** No path of [p] returns. *)
Fixpoint never_returns {A : Type} (p : Prog A) : Prop :=
  match p with
  | Ret _ => False
  | Raise _ => True
  | Vis _ k => forall x, never_returns (k x)
  end.

(** *** Failures and their report *)

(** When [p] starts with a print: the file, the line and what comes next. *)
Definition as_print {A X : Type} (c : Cmd X) (k : X -> Prog A)
  : option (Stream * string * Prog A) :=
  match c in Cmd X0 return (X0 -> Prog A) -> option (Stream * string * Prog A) with
  | Print file line => fun k0 => Some (file, line, k0 tt)
  | Enter _ => fun _ => None
  | Git _ => fun _ => None
  end k.

Definition head_print {A : Type} (p : Prog A) : option (Stream * string * Prog A) :=
  match p with
  | Vis c k => as_print c k
  | _ => None
  end.

(** [p] is what [check_error False msg] does: the three lines of
    [report_failure msg] on standard error, then [AssertionError(msg)]. *)
Definition is_failure_block {A : Type} (msg : string) (p : Prog A) : Prop :=
  match head_print p with
  | Some (stderr, l1, p1) =>
      l1 = Py.times "!" 80 /\
      match head_print p1 with
      | Some (stderr, l2, p2) =>
          l2 = msg /\
          match head_print p2 with
          | Some (stderr, l3, p3) =>
              l3 = Py.times "@" 80 /\ p3 = Raise (AssertionError (Some msg))
          | _ => False
          end
      | _ => False
      end
  | _ => False
  end.

(** Every failure with a message that [p] can end in is such a block. *)
Fixpoint well_reported {A : Type} (p : Prog A) : Prop :=
  match p with
  | Ret _ => True
  | Raise (AssertionError None) => True
  | Raise (AssertionError (Some _)) => False
  | Vis c k =>
      (exists msg, is_failure_block msg (Vis c k)) \/ forall x, well_reported (k x)
  end.

(** Every failure [p] can end in satisfies [ok]. *)
Fixpoint raises_only {A : Type} (ok : Exn -> bool) (p : Prog A) : Prop :=
  match p with
  | Ret _ => True
  | Raise e => ok e = true
  | Vis _ k => forall x, raises_only ok (k x)
  end.

Definition has_message (e : Exn) : bool :=
  match e with
  | AssertionError (Some _) => true
  | AssertionError None => false
  end.

(** What [merge_branches] records and prints before its first helper call. *)
Definition merge_branches_banner (whence whither : string) : list Event :=
  [Ev (Enter (act_merge_branches whence whither)) tt;
   Ev (Print stdout (Py.times "=" 80)) tt;
   Ev (Print stdout __doc__) tt;
   Ev (Print stdout (Py.times "=" 80)) tt;
   Ev (Print stdout ("merge_branches: " ++ Py.dq ++ whence ++ Py.dq ++ " -> "
                       ++ Py.dq ++ whither ++ Py.dq)) tt].

(** * Properties *)

(** ** Python helpers *)

Lemma truthy_iff (s : string) : Py.truthy s = true <-> s <> EmptyString.
Proof. destruct s; simpl; split; congruence. Qed.

Lemma truthy_false_iff (s : string) : Py.truthy s = false <-> s = EmptyString.
Proof. destruct s; simpl; split; congruence. Qed.

Lemma truthy_and (a b : string) :
  Py.truthy (Py.and_ a b) = Py.truthy a && Py.truthy b.
Proof. unfold Py.and_. destruct (Py.truthy a) eqn:E; simpl; auto. Qed.

Lemma truthy_or (a b : string) :
  Py.truthy (Py.or_ a b) = Py.truthy a || Py.truthy b.
Proof. unfold Py.or_. destruct (Py.truthy a) eqn:E; simpl; auto. Qed.







Lemma split_from_nonempty (s field : string) :
  Py.split_from field s <> [] -> field <> EmptyString \/ s <> EmptyString.
Proof.
  destruct s; simpl.
  - destruct field; simpl; [congruence | left; congruence].
  - right; congruence.
Qed.

Lemma split_nonempty (s : string) : Py.split s <> [] -> s <> EmptyString.
Proof.
  intros H. destruct (split_from_nonempty _ _ H) as [E|E]; congruence.
Qed.

(** ** Running: sequencing, loops, equivalent programs *)

Section Running.

Context {W : Type} (g : Gateway W).

Lemma run_bind {A B : Type} (m : Prog A) (f : A -> Prog B) (w : W) :
  run g (bind m f) w =
  match outcome (run g m w) with
  | Returned a =>
      let r := run g (f a) (world (run g m w)) in
      (outcome r, world r, events (run g m w) ++ events r)%list
  | Raised e => (Raised e, world (run g m w), events (run g m w))
  end.
Proof.
  revert w. induction m as [a|e|X c k IH]; intros w; simpl.
  - unfold outcome, world, events; simpl. now destruct (run g (f a) w) as [[o w'] evs].
  - reflexivity.
  - rewrite IH. unfold outcome, world, events; simpl.
    now destruct (fst (fst (run g (k (fst (perform g c w))) (snd (perform g c w))))).
Qed.

Lemma run_bind_returned {A B : Type} (m : Prog A) (f : A -> Prog B) (w w1 : W)
    (a : A) (evs1 : list Event) :
  run g m w = (Returned a, w1, evs1) ->
  run g (bind m f) w =
  (outcome (run g (f a) w1), world (run g (f a) w1), evs1 ++ events (run g (f a) w1))%list.
Proof. intros H. rewrite run_bind, H. reflexivity. Qed.

Lemma run_bind_raised {A B : Type} (m : Prog A) (f : A -> Prog B) (w w1 : W)
    (e : Exn) (evs1 : list Event) :
  run g m w = (Raised e, w1, evs1) ->
  run g (bind m f) w = (Raised e, w1, evs1).
Proof. intros H. rewrite run_bind, H. reflexivity. Qed.

Lemma run_eta {A : Type} (p : Prog A) (w : W) :
  run g p w = (outcome (run g p w), world (run g p w), events (run g p w)).
Proof. unfold outcome, world, events. now destruct (run g p w) as [[o w'] evs]. Qed.

Lemma events_triple {A : Type} (o : Outcome A) (w : W) (evs : list Event) :
  events (o, w, evs) = evs.
Proof. reflexivity. Qed.

Lemma outcome_triple {A : Type} (o : Outcome A) (w : W) (evs : list Event) :
  outcome (o, w, evs) = o.
Proof. reflexivity. Qed.

Lemma world_triple {A : Type} (o : Outcome A) (w : W) (evs : list Event) :
  world (o, w, evs) = w.
Proof. reflexivity. Qed.

Lemma same_refl {A : Type} (p : Prog A) : same g p p.
Proof. intros w. reflexivity. Qed.

Lemma same_Vis {A X : Type} (c : Cmd X) (k k' : X -> Prog A) :
  (forall x, same g (k x) (k' x)) -> same g (Vis c k) (Vis c k').
Proof. intros H w. simpl. now rewrite H. Qed.

Lemma same_bind {A B : Type} (m : Prog A) (f f' : A -> Prog B) :
  (forall a, same g (f a) (f' a)) -> same g (bind m f) (bind m f').
Proof.
  intros H w. rewrite !run_bind.
  destruct (outcome (run g m w)); [rewrite H|]; reflexivity.
Qed.

Lemma run_bind_assoc {A B C : Type} (m : Prog A) (f : A -> Prog B) (h : B -> Prog C)
    (w : W) :
  run g (bind (bind m f) h) w = run g (bind m (fun a => bind (f a) h)) w.
Proof.
  revert w. induction m as [a|e|X c k IH]; intros w; simpl; try reflexivity.
  now rewrite IH.
Qed.

Lemma same_assoc_r {A B C : Type} (p : Prog C) (m : Prog A) (f : A -> Prog B)
    (h : B -> Prog C) :
  same g p (bind m (fun a => bind (f a) h)) -> same g p (bind (bind m f) h).
Proof. intros H w. now rewrite run_bind_assoc. Qed.

End Running.

Lemma git_calls_app (evs evs' : list Event) :
  git_calls (evs ++ evs') = (git_calls evs ++ git_calls evs')%list.
Proof.
  induction evs as [|[X c x] evs IH]; simpl; [reflexivity|].
  destruct c; simpl; now rewrite IH.
Qed.

Lemma started_merges_app (evs evs' : list Event) :
  started_merges (evs ++ evs') = (started_merges evs ++ started_merges evs')%list.
Proof.
  induction evs as [|[X c x] evs IH]; simpl; [reflexivity|].
  destruct c as [| [] |]; simpl; now rewrite IH.
Qed.

Lemma count_calls_app (f : AnyCall -> bool) (evs evs' : list Event) :
  count_calls f (evs ++ evs') = (count_calls f evs + count_calls f evs')%nat.
Proof.
  unfold count_calls. now rewrite git_calls_app, filter_app, length_app.
Qed.

(** ** Steps of a program and events of its runs *)

Lemma all_steps_bind {A B : Type} (ok : CmdPred) (m : Prog A) (f : A -> Prog B) :
  all_steps ok m -> (forall a, all_steps ok (f a)) -> all_steps ok (bind m f).
Proof.
  intros Hm Hf. induction m as [a|e|X c k IH]; simpl in *.
  - apply Hf.
  - exact I.
  - destruct Hm as [Hc Hk]. split; [exact Hc | intro x; apply IH, Hk].
Qed.

Lemma all_steps_run {W A : Type} (g : Gateway W) (ok : CmdPred) (p : Prog A) :
  all_steps ok p -> forall w, forallb (ev_ok ok) (events (run g p w)) = true.
Proof.
  induction p as [a|e|X c k IH]; intros Hp w; simpl in *; try reflexivity.
  destruct Hp as [Hc Hk]. unfold events in *; simpl. rewrite Hc. simpl. now apply IH.
Qed.

Lemma calls_in_git_calls (f : AnyCall -> bool) (evs : list Event) :
  forallb (ev_ok (calls_in f)) evs = true -> forallb f (git_calls evs) = true.
Proof.
  induction evs as [|[X c x] evs IH]; simpl; [reflexivity|].
  intros H. apply andb_true_iff in H. destruct H as [Hc Hevs].
  destruct c; simpl in *; auto. rewrite Hc. simpl. auto.
Qed.

Lemma forallb_count_zero (f h : AnyCall -> bool) (evs : list Event) :
  (forall a, f a = true -> h a = false) ->
  forallb f (git_calls evs) = true -> count_calls h evs = 0%nat.
Proof.
  intros Hfh. unfold count_calls.
  induction (git_calls evs) as [|a l IH]; simpl; [reflexivity|].
  intros H. apply andb_true_iff in H. destruct H as [Ha Hl].
  rewrite (Hfh _ Ha). auto.
Qed.

Lemma not_entering_started (evs : list Event) :
  forallb (ev_ok not_entering_merge) evs = true -> started_merges evs = [].
Proof.
  induction evs as [|[X c x] evs IH]; simpl; [reflexivity|].
  intros H. apply andb_true_iff in H. destruct H as [Hc Hevs].
  destruct c as [| [] |]; simpl in *; auto. discriminate.
Qed.

Ltac all_steps_tac :=
  repeat first
    [ exact I
    | reflexivity
    | intro
    | split
    | apply all_steps_bind
    | match goal with
      | |- all_steps _ (if ?b then _ else _) => destruct b
      end
    | progress unfold check_error, report_failure, py_assert
    | progress cbn [all_steps bind trigger git print print_err enter] ].

(** ** [merge_branches] is its stages in sequence *)

Ltac same_step :=
  cbn beta zeta iota delta [bind trigger git print print_err enter];
  lazymatch goal with
  | |- same _ _ (bind (bind _ _) _) => apply same_assoc_r
  | |- same _ (Vis _ _) (Vis _ _) => apply same_Vis; intro
  | |- same _ (bind _ _) (bind _ _) => apply same_bind; intro
  | |- same _ _ _ => apply same_refl
  end.

Section Stages.

Variable format_error : ExecResult -> option string -> string.
Context {W : Type} (g : Gateway W).

Lemma merge_branches_stages (whence whither : string)
    (do_push clean_branches debugging : bool) :
  same g (merge_branches format_error whence whither do_push clean_branches debugging)
         (merge_branches_to_push format_error whence whither clean_branches debugging ;;
          merge_branches_push format_error do_push whither).
Proof.
  unfold merge_branches, merge_branches_to_push, merge_branches_to_report,
    merge_branches_to_sync, merge_branches_setup, merge_branches_checks,
    merge_branches_merge, merge_branches_update, merge_branches_do_merge,
    merge_branches_report, merge_branches_push,
    msg_branches_required, msg_to_not_in, msg_from_not_in.
  repeat same_step.
Qed.

Lemma merge_branches_stages_sync (whence whither : string)
    (do_push clean_branches debugging : bool) :
  same g (merge_branches format_error whence whither do_push clean_branches debugging)
         (merge_branches_to_sync format_error whence whither clean_branches debugging ;;
          merge_branches_from_sync format_error whence whither do_push).
Proof.
  unfold merge_branches, merge_branches_from_sync,
    merge_branches_to_sync, merge_branches_setup, merge_branches_checks,
    merge_branches_merge, merge_branches_update, merge_branches_do_merge,
    merge_branches_report, merge_branches_push,
    msg_branches_required, msg_to_not_in, msg_from_not_in.
  repeat same_step.
Qed.

End Stages.

(** ** The Error Reporter *)

Section Facts.

Variable format_error : ExecResult -> option string -> string.
Context {W : Type} (g : Gateway W).

Lemma run_check_error_true (msg : string) (w : W) :
  run g (check_error true msg) w = (Returned tt, w, []).
Proof. reflexivity. Qed.

Lemma run_check_error_false (msg : string) (w : W) :
  run g (check_error false msg) w =
  (Raised (AssertionError (Some msg)), w, failure_report msg).
Proof. reflexivity. Qed.

Lemma all_steps_check_error (ok : CmdPred) (condition : bool) (msg : string) :
  (forall line, ok _ (Print stderr line) = true) ->
  all_steps ok (check_error condition msg).
Proof.
  intros Hok. destruct condition; all_steps_tac; apply Hok.
Qed.

Lemma git_calls_failure_report (msg : string) : git_calls (failure_report msg) = [].
Proof. reflexivity. Qed.

Lemma started_merges_failure_report (msg : string) :
  started_merges (failure_report msg) = [].
Proof. reflexivity. Qed.

(** ** The checks on the branch names *)

Lemma run_checks (whence whither : string) (branch_list : list string) (w : W) :
  run g (merge_branches_checks whence whither branch_list) w =
  if negb (Py.truthy whence && Py.truthy whither) then
    (Raised (AssertionError (Some (msg_branches_required whence whither))), w,
     failure_report (msg_branches_required whence whither))
  else if negb (Py.in_ whither branch_list) then
    (Raised (AssertionError (Some (msg_to_not_in whither branch_list))), w,
     failure_report (msg_to_not_in whither branch_list))
  else if negb (Py.in_ whence branch_list) then
    (Raised (AssertionError (Some (msg_from_not_in whence branch_list))), w,
     failure_report (msg_from_not_in whence branch_list))
  else (Returned tt, w, []).
Proof.
  unfold merge_branches_checks. rewrite truthy_and.
  destruct (Py.truthy whence && Py.truthy whither); [|reflexivity].
  destruct (Py.in_ whither branch_list); [|reflexivity].
  destruct (Py.in_ whence branch_list); reflexivity.
Qed.

(** ** How a run of [merge_branches] follows from the runs of its stages *)

Lemma setup_calls (whence whither : string) (clean_branches debugging : bool) :
  all_steps (calls_in is_setup_call)
            (merge_branches_setup format_error whence whither clean_branches debugging).
Proof.
  unfold merge_branches_setup. all_steps_tac.
Qed.

Lemma merge_branches_setup_raised (whence whither : string)
    (do_push clean_branches debugging : bool) (w w1 : W) (e : Exn) (evs1 : list Event) :
  run g (merge_branches_setup format_error whence whither clean_branches debugging) w
    = (Raised e, w1, evs1) ->
  run g (merge_branches format_error whence whither do_push clean_branches debugging) w
    = (Raised e, w1, evs1).
Proof.
  intros H. rewrite merge_branches_stages_sync.
  apply run_bind_raised. unfold merge_branches_to_sync.
  apply run_bind_raised. exact H.
Qed.

Lemma merge_branches_setup_returned (whence whither : string)
    (do_push clean_branches debugging : bool) (w w1 : W) (branch_list : list string)
    (evs1 : list Event) :
  run g (merge_branches_setup format_error whence whither clean_branches debugging) w
    = (Returned branch_list, w1, evs1) ->
  run g (merge_branches_to_sync format_error whence whither clean_branches debugging) w
    = (outcome (run g (merge_branches_checks whence whither branch_list) w1),
       world (run g (merge_branches_checks whence whither branch_list) w1),
       evs1 ++ events (run g (merge_branches_checks whence whither branch_list) w1))%list.
Proof.
  intros H. unfold merge_branches_to_sync.
  rewrite (run_bind_returned g _ _ _ _ _ _ H). reflexivity.
Qed.

Lemma merge_branches_to_sync_raised (whence whither : string)
    (do_push clean_branches debugging : bool) (w w1 : W) (e : Exn) (evs1 : list Event) :
  run g (merge_branches_to_sync format_error whence whither clean_branches debugging) w
    = (Raised e, w1, evs1) ->
  run g (merge_branches format_error whence whither do_push clean_branches debugging) w
    = (Raised e, w1, evs1).
Proof.
  intros H. rewrite merge_branches_stages_sync. now apply run_bind_raised.
Qed.

Lemma merge_branches_to_sync_returned (whence whither : string)
    (do_push clean_branches debugging : bool) (w w1 : W) (evs1 : list Event) :
  run g (merge_branches_to_sync format_error whence whither clean_branches debugging) w
    = (Returned tt, w1, evs1) ->
  run g (merge_branches format_error whence whither do_push clean_branches debugging) w
    = (outcome (run g (merge_branches_from_sync format_error whence whither do_push) w1),
       world (run g (merge_branches_from_sync format_error whence whither do_push) w1),
       evs1 ++ events (run g (merge_branches_from_sync format_error whence whither do_push) w1))%list.
Proof.
  intros H. rewrite merge_branches_stages_sync.
  rewrite (run_bind_returned g _ _ _ _ _ _ H). reflexivity.
Qed.

(** When a check on the names fails, the run ends with that failure, right
    after the setup. *)
Lemma merge_branches_check_fails (whence whither : string)
    (do_push clean_branches debugging : bool) (w w1 : W) (branch_list : list string)
    (evs1 evs2 : list Event) (e : Exn) :
  run g (merge_branches_setup format_error whence whither clean_branches debugging) w
    = (Returned branch_list, w1, evs1) ->
  run g (merge_branches_checks whence whither branch_list) w1 = (Raised e, w1, evs2) ->
  run g (merge_branches format_error whence whither do_push clean_branches debugging) w
    = (Raised e, w1, evs1 ++ evs2)%list.
Proof.
  intros Hs Hc. apply merge_branches_to_sync_raised.
  rewrite (merge_branches_setup_returned _ _ do_push _ _ _ _ _ _ Hs), Hc. reflexivity.
Qed.

End Facts.

(** ** Empty and unknown branch names *)

Lemma setup_events_calls (format_error : ExecResult -> option string -> string)
    {W : Type} (g : Gateway W) (whence whither : string)
    (clean_branches debugging : bool) (w : W) :
  forallb is_setup_call
    (git_calls (events (run g (merge_branches_setup format_error whence whither
                                  clean_branches debugging) w))) = true.
Proof. apply calls_in_git_calls, all_steps_run, setup_calls. Qed.


(** C2, amended: with an empty [whence] or [whither] the run fails and makes
    no helper call other than the five setup calls (debugging, config, reset,
    fetch, track); when the setup itself succeeds, the failure is the check
    that names both branches, raised right after the setup. *)
Theorem empty_name_fails_after_setup
    (format_error : ExecResult -> option string -> string)
    (W : Type) (g : Gateway W) (w : W) (whence whither : string)
    (do_push clean_branches debugging : bool) :
  whence = EmptyString \/ whither = EmptyString ->
  let r := run g (merge_branches format_error whence whither
                    do_push clean_branches debugging) w in
  failed (outcome r) = true /\
  forallb is_setup_call (git_calls (events r)) = true /\
  forall branch_list w1 evs1,
    run g (merge_branches_setup format_error whence whither clean_branches debugging) w
      = (Returned branch_list, w1, evs1) ->
    r = (Raised (AssertionError (Some (msg_branches_required whence whither))), w1,
         (evs1 ++ failure_report (msg_branches_required whence whither))%list).
Proof.
  intros Hempty r.
  assert (Hcalls := setup_events_calls format_error g whence whither
                      clean_branches debugging w).
  assert (Hfalse : Py.truthy whence && Py.truthy whither = false).
  { destruct Hempty as [-> | ->]; simpl; [reflexivity | apply andb_false_r]. }
  destruct (run g (merge_branches_setup format_error whence whither
                     clean_branches debugging) w) as [[[bl|e] w1] evs1] eqn:Hs.
  - assert (Hr : r = (Raised (AssertionError (Some (msg_branches_required whence whither))),
                      w1, (evs1 ++ failure_report (msg_branches_required whence whither))%list)).
    { subst r. eapply merge_branches_check_fails; [exact Hs|].
      rewrite run_checks, Hfalse. reflexivity. }
    rewrite Hr. unfold outcome, events; simpl fst; simpl snd. repeat split.
    + rewrite git_calls_app, git_calls_failure_report, app_nil_r. exact Hcalls.
    + intros bl' w1' evs1' E. inversion E; subst. reflexivity.
  - assert (Hr : r = (Raised e, w1, evs1)).
    { subst r. now apply merge_branches_setup_raised. }
    rewrite Hr. unfold outcome, events; simpl fst; simpl snd. repeat split.
    + exact Hcalls.
    + intros bl' w1' evs1' E. discriminate E.
Qed.


Lemma empty_name_fails_after_setup_witness :
  (EmptyString = EmptyString \/ "b" = EmptyString) /\
  let r := run (Demo.gateway Demo.quiet)
               (merge_branches Demo.format_error EmptyString "b" false false false) 0%nat in
  failed (outcome r) = true /\
  forallb is_setup_call (git_calls (events r)) = true /\
  forall branch_list w1 evs1,
    run (Demo.gateway Demo.quiet)
        (merge_branches_setup Demo.format_error EmptyString "b" false false) 0%nat
      = (Returned branch_list, w1, evs1) ->
    r = (Raised (AssertionError (Some (msg_branches_required EmptyString "b"))), w1,
         (evs1 ++ failure_report (msg_branches_required EmptyString "b"))%list).
Proof.
  split; [left; reflexivity|].
  apply (empty_name_fails_after_setup Demo.format_error nat (Demo.gateway Demo.quiet)
           0%nat EmptyString "b" false false false).
  left; reflexivity.
Defined.

(** C2 as stated fails: with an empty [whence] the run does fail with the
    message naming both branches, but only after five helper calls. *)
Lemma empty_whence_fails_after_five_calls :
  let r := run (Demo.gateway Demo.quiet)
               (merge_branches Demo.format_error EmptyString "b" false false false) 0%nat in
  outcome r = Raised (AssertionError (Some (msg_branches_required EmptyString "b"))) /\
  git_calls (events r) =
    [call (git_debugging false); call (git_config_set "merge.renameLimit" "999999");
     call (git_reset "HEAD"); call git_fetch; call (git_track_all false)] /\
  git_calls (events r) <> [].
Proof.
  vm_compute. repeat split; discriminate.
Qed.



(** ** The push *)

Lemma merge_branches_never_pushes
    (format_error : ExecResult -> option string -> string)
    (whence whither : string) (do_push clean_branches debugging : bool) :
  all_steps (calls_in is_not_push_call)
            (merge_branches format_error whence whither do_push clean_branches debugging).
Proof.
  unfold merge_branches, checkout_update_branch. all_steps_tac.
Qed.

Lemma not_push_count (evs : list Event) :
  forallb (ev_ok (calls_in is_not_push_call)) evs = true ->
  count_calls is_push_call evs = 0%nat.
Proof.
  intros H. apply forallb_count_zero with (f := is_not_push_call).
  - intros a. unfold is_not_push_call. now destruct (is_push_call a).
  - now apply calls_in_git_calls.
Qed.

Lemma merge_branches_to_push_returned
    (format_error : ExecResult -> option string -> string)
    {W : Type} (g : Gateway W) (whence whither : string)
    (do_push clean_branches debugging : bool) (w w1 : W) (evs1 : list Event) :
  run g (merge_branches_to_push format_error whence whither clean_branches debugging) w
    = (Returned tt, w1, evs1) ->
  run g (merge_branches format_error whence whither do_push clean_branches debugging) w
    = (outcome (run g (merge_branches_push format_error do_push whither) w1),
       world (run g (merge_branches_push format_error do_push whither) w1),
       evs1 ++ events (run g (merge_branches_push format_error do_push whither) w1))%list.
Proof.
  intros H. rewrite merge_branches_stages.
  rewrite (run_bind_returned g _ _ _ _ _ _ H). reflexivity.
Qed.

(** C3, amended: a run with [do_push] set that gets through the report stops
    there with the bare assertion failure of [assert False], in the state the
    report left; [git_push] is not called, in this or in any other run of
    [merge_branches]. *)
Theorem push_is_disabled
    (format_error : ExecResult -> option string -> string)
    (W : Type) (g : Gateway W) (w w1 : W) (whence whither : string)
    (clean_branches debugging : bool) (evs1 : list Event) :
  run g (merge_branches_to_push format_error whence whither clean_branches debugging) w
    = (Returned tt, w1, evs1) ->
  run g (merge_branches format_error whence whither true clean_branches debugging) w
    = (Raised (AssertionError None), w1, evs1) /\
  count_calls is_push_call evs1 = 0%nat /\
  forall do_push w',
    count_calls is_push_call
      (events (run g (merge_branches format_error whence whither do_push
                        clean_branches debugging) w')) = 0%nat.
Proof.
  intros H.
  assert (Hnever : forall do_push w',
    count_calls is_push_call
      (events (run g (merge_branches format_error whence whither do_push
                        clean_branches debugging) w')) = 0%nat).
  { intros do_push w'. apply not_push_count, all_steps_run, merge_branches_never_pushes. }
  assert (Hr : run g (merge_branches format_error whence whither true
                        clean_branches debugging) w
               = (Raised (AssertionError None), w1, evs1)).
  { rewrite (merge_branches_to_push_returned format_error g _ _ true _ _ _ _ _ H).
    simpl. now rewrite app_nil_r. }
  split; [exact Hr|]. split; [|exact Hnever].
  specialize (Hnever true w). rewrite Hr in Hnever. exact Hnever.
Qed.

Lemma push_is_disabled_witness :
  let g := Demo.gateway Demo.busy in
  let to_push := merge_branches_to_push Demo.format_error "a" "b" false false in
  run g to_push 0%nat = (Returned tt, 1%nat, events (run g to_push 0%nat)) /\
  run g (merge_branches Demo.format_error "a" "b" true false false) 0%nat
    = (Raised (AssertionError None), 1%nat, events (run g to_push 0%nat)) /\
  count_calls is_push_call (events (run g to_push 0%nat)) = 0%nat /\
  forall do_push w',
    count_calls is_push_call
      (events (run g (merge_branches Demo.format_error "a" "b" do_push false false) w'))
    = 0%nat.
Proof.
  intros g to_push.
  assert (H : run g to_push 0%nat = (Returned tt, 1%nat, events (run g to_push 0%nat)))
    by reflexivity.
  split; [exact H|].
  exact (push_is_disabled Demo.format_error nat g 0%nat 1%nat "a" "b" false false _ H).
Defined.

(** C3 as stated fails: with [do_push] set, a run in which every helper
    succeeds gets through the report (the new log entry is printed), then
    stops with an assertion failure; [git_push] is not among its calls. *)
Lemma push_requested_but_not_called :
  let r := run (Demo.gateway Demo.busy)
               (merge_branches Demo.format_error "a" "b" true false false) 0%nat in
  outcome r = Raised (AssertionError None) /\
  In (stdout, "log entry") (printed (events r)) /\
  filter is_push_call (git_calls (events r)) = [] /\
  ~ In (call (git_push "b")) (git_calls (events r)).
Proof.
  vm_compute. split; [reflexivity|]. split; [|split].
  - repeat first [left; reflexivity | right].
  - reflexivity.
  - intros H. repeat (destruct H as [H|H]; [discriminate H|]). exact H.
Qed.

(** ** The report *)

Lemma run_report {W : Type} (g : Gateway W) (sha_before sha_after : string) (w : W) :
  run g (merge_branches_report sha_before sha_after) w =
  if (sha_before =? sha_after)%string
  then (Returned tt, w, report_no_change sha_before sha_after)
  else (Returned tt, snd (g _ git_show w),
        report_log sha_before sha_after (fst (g _ git_show w))).
Proof.
  unfold merge_branches_report.
  destruct (sha_before =? sha_after)%string; reflexivity.
Qed.

Lemma run_push (format_error : ExecResult -> option string -> string)
    {W : Type} (g : Gateway W) (do_push : bool) (whither : string) (w : W) :
  run g (merge_branches_push format_error do_push whither) w =
  (if do_push then Raised (AssertionError None) else Returned tt, w, []).
Proof. destruct do_push; reflexivity. Qed.

(** C8: in a run that gets to the report with the SHA [sha_before] and
    [sha_after], what happens after that point is exactly the report: when
    the two are equal it prints [No change] and makes no helper call, when
    they differ it calls [git_show] once and prints its output. *)
Theorem report_no_change_or_one_log
    (format_error : ExecResult -> option string -> string)
    (W : Type) (g : Gateway W) (w w1 : W) (whence whither : string)
    (do_push clean_branches debugging : bool)
    (sha_before sha_after : string) (evs1 : list Event) :
  run g (merge_branches_to_report format_error whence whither clean_branches debugging) w
    = (Returned (sha_before, sha_after), w1, evs1) ->
  exists evs2,
    events (run g (merge_branches format_error whence whither do_push
                     clean_branches debugging) w) = (evs1 ++ evs2)%list /\
    (sha_before = sha_after ->
     evs2 = report_no_change sha_before sha_after /\
     In (stdout, "No change") (printed evs2) /\
     count_calls is_show_call evs2 = 0%nat /\
     git_calls evs2 = []) /\
    (sha_before <> sha_after ->
     evs2 = report_log sha_before sha_after (fst (g _ git_show w1)) /\
     count_calls is_show_call evs2 = 1%nat /\
     git_calls evs2 = [call git_show]).
Proof.
  intros H.
  assert (Hp : run g (merge_branches_to_push format_error whence whither
                        clean_branches debugging) w
               = (Returned tt,
                  world (run g (merge_branches_report sha_before sha_after) w1),
                  (evs1 ++ events (run g (merge_branches_report sha_before sha_after) w1))%list)).
  { unfold merge_branches_to_push. rewrite (run_bind_returned g _ _ _ _ _ _ H).
    simpl fst; simpl snd. rewrite run_report.
    destruct (sha_before =? sha_after)%string; reflexivity. }
  rewrite (merge_branches_to_push_returned format_error g _ _ do_push _ _ _ _ _ Hp).
  rewrite run_push, !events_triple, app_nil_r.
  eexists. split; [reflexivity|].
  rewrite run_report. split.
  - intros E. apply String.eqb_eq in E. rewrite E, events_triple.
    split; [reflexivity|]. split; [|split; reflexivity].
    simpl. do 4 right. left. reflexivity.
  - intros E. apply String.eqb_neq in E. rewrite E, events_triple.
    repeat split.
Qed.

Lemma report_no_change_or_one_log_witness :
  let g := Demo.gateway Demo.busy in
  let to_report := merge_branches_to_report Demo.format_error "a" "b" false false in
  run g to_report 0%nat = (Returned ("sha0", "sha1"), 1%nat, events (run g to_report 0%nat)) /\
  exists evs2,
    events (run g (merge_branches Demo.format_error "a" "b" false false false) 0%nat)
      = (events (run g to_report 0%nat) ++ evs2)%list /\
    ("sha0" = "sha1" ->
     evs2 = report_no_change "sha0" "sha1" /\
     In (stdout, "No change") (printed evs2) /\
     count_calls is_show_call evs2 = 0%nat /\
     git_calls evs2 = []) /\
    ("sha0" <> "sha1" ->
     evs2 = report_log "sha0" "sha1" (fst (g _ git_show 1%nat)) /\
     count_calls is_show_call evs2 = 1%nat /\
     git_calls evs2 = [call git_show]).
Proof.
  intros g to_report.
  assert (H : run g to_report 0%nat
              = (Returned ("sha0", "sha1"), 1%nat, events (run g to_report 0%nat)))
    by reflexivity.
  split; [exact H|].
  exact (report_no_change_or_one_log Demo.format_error nat g 0%nat 1%nat "a" "b"
           false false false "sha0" "sha1" _ H).
Defined.

(** ** The merge plan and the loop of [merge_up] *)

Lemma merge_list_cons (b1 b2 : string) (l : list string) :
  merge_list (b1 :: b2 :: l) = (b1, b2) :: merge_list (b2 :: l).
Proof. reflexivity. Qed.


Lemma merge_list_length (branch_list : list string) :
  List.length (merge_list branch_list) = (List.length branch_list - 1)%nat.
Proof.
  induction branch_list as [|b1 l IH]; [reflexivity|].
  destruct l as [|b2 l]; [reflexivity|].
  rewrite merge_list_cons. simpl List.length in *. rewrite IH. lia.
Qed.


Section Loop.

Variable format_error : ExecResult -> option string -> string.
Context {W : Type} (g : Gateway W).
Variables do_push clean_branches debugging : bool.

Lemma started_merges_entered {A : Type} (whence whither : string)
    (k : unit -> Prog A) (w : W) :
  all_steps not_entering_merge (k tt) ->
  started_merges (events (run g (Vis (Enter (act_merge_branches whence whither)) k) w))
    = [(whence, whither)].
Proof.
  intros Hk. unfold events; simpl. f_equal.
  apply not_entering_started. apply (all_steps_run g _ _ Hk).
Qed.

(** Every run of [merge_branches] records its own activation and no other. *)
Lemma merge_branches_started (whence whither : string) (w : W) :
  started_merges
    (events (run g (merge_branches format_error whence whither
                      do_push clean_branches debugging) w))
    = [(whence, whither)].
Proof.
  apply started_merges_entered.
  unfold checkout_update_branch. all_steps_tac.
Qed.

Lemma run_merge_up (branch_list : list string) (w : W) :
  run g (merge_up format_error branch_list do_push clean_branches debugging) w =
  let r := run g (for_each (Py.enumerate (merge_list branch_list))
                    (fun ibb => merge_branches format_error (fst (snd ibb)) (snd (snd ibb))
                                  do_push clean_branches debugging)) w in
  (outcome r, world r, (merge_up_banner branch_list ++ events r)%list).
Proof. reflexivity. Qed.


End Loop.

(** C5: when the merge of the first pair of the list fails, [merge_up] ends
    with that failure in the state where the merge failed, having done
    nothing after it: the only merge started is the first pair's. *)
Theorem merge_up_stops_at_first_failure
    (format_error : ExecResult -> option string -> string)
    (W : Type) (g : Gateway W) (w w1 : W) (b1 b2 : string) (rest : list string)
    (do_push clean_branches debugging : bool) (e : Exn) (evs1 : list Event) :
  run g (merge_branches format_error b1 b2 do_push clean_branches debugging) w
    = (Raised e, w1, evs1) ->
  run g (merge_up format_error (b1 :: b2 :: rest) do_push clean_branches debugging) w
    = (Raised e, w1, (merge_up_banner (b1 :: b2 :: rest) ++ evs1)%list) /\
  started_merges (merge_up_banner (b1 :: b2 :: rest) ++ evs1) = [(b1, b2)].
Proof.
  intros H. split.
  - rewrite run_merge_up, merge_list_cons.
    cbn [Py.enumerate Py.enumerate_from for_each]. cbv zeta.
    rewrite (run_bind_raised g _ _ _ _ _ _ H). reflexivity.
  - rewrite started_merges_app.
    assert (Hm := merge_branches_started format_error g
                    do_push clean_branches debugging b1 b2 w).
    rewrite H, events_triple in Hm. rewrite Hm. reflexivity.
Qed.

Lemma merge_up_stops_at_first_failure_witness :
  let g := Demo.gateway Demo.stuck in
  let first := merge_branches Demo.format_error "a" "b" false false false in
  run g first 0%nat
    = (Raised (AssertionError (Some "git failed")), 0%nat, events (run g first 0%nat)) /\
  run g (merge_up Demo.format_error ["a"; "b"; "c"] false false false) 0%nat
    = (Raised (AssertionError (Some "git failed")), 0%nat,
       (merge_up_banner ["a"; "b"; "c"] ++ events (run g first 0%nat))%list) /\
  started_merges (merge_up_banner ["a"; "b"; "c"] ++ events (run g first 0%nat))
    = [("a", "b")].
Proof.
  intros g first.
  assert (H : run g first 0%nat
              = (Raised (AssertionError (Some "git failed")), 0%nat,
                 events (run g first 0%nat))) by reflexivity.
  split; [exact H|].
  exact (merge_up_stops_at_first_failure Demo.format_error nat g 0%nat 0%nat
           "a" "b" ["c"] false false false _ _ H).
Defined.



(** ** The command line *)

(** C9: with a non-empty [--up] string and a non-empty [--from] or [--to],
    [main] raises the assertion failure about the options right after
    [lowpriority]: the branch string is not split, and neither [merge_up] nor
    [merge_branches] is entered.  (A non-empty branch list comes from a
    non-empty string: [split_nonempty].) *)
Theorem up_with_from_or_to_is_rejected
    (format_error : ExecResult -> option string -> string)
    (W : Type) (g : Gateway W) (w : W) (opts : options.t) :
  options.branch_list_str opts <> EmptyString ->
  options.whence opts <> EmptyString \/ options.whither opts <> EmptyString ->
  run g (main format_error opts) w
    = (Raised (AssertionError (Some "--up cannot be used with --to and --from")),
       snd (g _ lowpriority w),
       [Ev (Git lowpriority) (fst (g _ lowpriority w))]).
Proof.
  intros Hup Hpair. unfold main.
  apply truthy_iff in Hup. rewrite Hup.
  assert (Ht : Py.truthy (Py.or_ (options.whence opts) (options.whither opts)) = true).
  { rewrite truthy_or. apply orb_true_iff.
    destruct Hpair as [H|H]; apply truthy_iff in H; auto. }
  rewrite Ht. reflexivity.
Qed.

Lemma up_with_from_or_to_is_rejected_witness :
  let opts := options.mk false false false "b" EmptyString "a b" in
  options.branch_list_str opts <> EmptyString /\
  (options.whence opts <> EmptyString \/ options.whither opts <> EmptyString) /\
  run (Demo.gateway Demo.quiet) (main Demo.format_error opts) 0%nat
    = (Raised (AssertionError (Some "--up cannot be used with --to and --from")),
       0%nat, [Ev (Git lowpriority) tt]).
Proof.
  intros opts.
  assert (Hup : options.branch_list_str opts <> EmptyString) by discriminate.
  assert (Hpair : options.whence opts <> EmptyString \/ options.whither opts <> EmptyString)
    by (right; discriminate).
  split; [exact Hup|]. split; [exact Hpair|].
  exact (up_with_from_or_to_is_rejected Demo.format_error nat (Demo.gateway Demo.quiet)
           0%nat opts Hup Hpair).
Defined.

(** ** Merging a branch into itself *)




(** ** Which exit statuses are looked at *)

(** What [checkout_update_branch] does, step by step: the statuses of the
    checkout and of the pull decide; the answer of the reset is not used. *)
Lemma run_checkout_update_branch
    (format_error : ExecResult -> option string -> string)
    {W : Type} (g : Gateway W) (branch : string) (w : W) :
  run g (checkout_update_branch format_error branch) w =
  let co := g _ (git_checkout branch true) w in
  let entered := [Ev (Enter (act_checkout_update_branch branch)) tt;
                  Ev (Git (git_checkout branch true)) (fst co)] in
  if (ret (fst co) =? 0)%Z then
    let rs := g _ (git_reset ("origin/" ++ branch)) (snd co) in
    let pl := g _ (git_pull branch) (snd rs) in
    let pulled := (entered ++ [Ev (Git (git_reset ("origin/" ++ branch))) (fst rs);
                               Ev (Git (git_pull branch)) (fst pl)])%list in
    if (ret (snd (fst pl)) =? 0)%Z then (Returned tt, snd pl, pulled)
    else
      let msg := format_error (snd (fst pl)) (Some (Py.join Py.nl (fst (fst (fst pl))))) in
      (Raised (AssertionError (Some msg)), snd pl, (pulled ++ failure_report msg)%list)
  else
    let msg := format_error (fst co) None in
    (Raised (AssertionError (Some msg)), snd co, (entered ++ failure_report msg)%list).
Proof.
  unfold checkout_update_branch. cbn [bind enter git trigger run perform fst snd].
  cbv zeta.
  destruct (ret (fst (g _ (git_checkout branch true) w)) =? 0)%Z eqn:Eco.
  - unfold check_error, py_assert.
    cbn [negb bind run perform fst snd].
    match goal with
    | |- context [if negb ?c then _ else _] => destruct c
    end; reflexivity.
  - reflexivity.
Qed.

(** When updating [whence] raises, the run of [merge_branches] ends there. *)
Lemma sync_whence_failure_stops_run
    (format_error : ExecResult -> option string -> string)
    {W : Type} (g : Gateway W) (whence whither : string)
    (do_push clean_branches debugging : bool) (w w1 w2 : W) (e : Exn)
    (evs1 evs2 : list Event) :
  run g (merge_branches_to_sync format_error whence whither clean_branches debugging) w
    = (Returned tt, w1, evs1) ->
  run g (checkout_update_branch format_error whence) w1 = (Raised e, w2, evs2) ->
  run g (merge_branches format_error whence whither do_push clean_branches debugging) w
    = (Raised e, w2, (evs1 ++ evs2)%list).
Proof.
  intros Hs Hc.
  rewrite (merge_branches_to_sync_returned format_error g _ _ do_push _ _ _ _ _ Hs).
  assert (Hf : run g (merge_branches_from_sync format_error whence whither do_push) w1
               = (Raised e, w2, evs2)).
  { unfold merge_branches_from_sync, merge_branches_merge, merge_branches_update.
    rewrite !run_bind_assoc. now apply run_bind_raised. }
  rewrite Hf. reflexivity.
Qed.

(** C1, the code at three inputs where the claim fails: [git_reset HEAD],
    [git_reset origin/...] or [git_track_all] exits with status 1, every other
    helper succeeds.  The failed command is in the trace with its status,
    the run goes on through all later steps, the merge included, and
    [merge_branches] returns normally. *)
Theorem unchecked_statuses_do_not_stop_the_run :
  let run_in sc := run (Demo.gateway sc)
                       (merge_branches Demo.format_error "a" "b" false false false) 0%nat in
  (outcome (run_in Demo.bad_reset_head) = Returned tt /\
   In (Ev (Git (git_reset "HEAD")) (Demo.result 1)) (events (run_in Demo.bad_reset_head)) /\
   git_calls (events (run_in Demo.bad_reset_head)) =
     [call (git_debugging false); call (git_config_set "merge.renameLimit" "999999");
      call (git_reset "HEAD"); call git_fetch; call (git_track_all false);
      call (git_checkout "a" true); call (git_reset "origin/a"); call (git_pull "a");
      call (git_checkout "b" true); call (git_reset "origin/b"); call (git_pull "b");
      call git_show_sha; call (git_merge "a"); call git_show_sha]) /\
  (outcome (run_in Demo.bad_reset_origin) = Returned tt /\
   In (Ev (Git (git_reset "origin/a")) (Demo.result 1))
      (events (run_in Demo.bad_reset_origin)) /\
   count_calls is_merge_call (events (run_in Demo.bad_reset_origin)) = 1%nat) /\
  (outcome (run_in Demo.bad_track_all) = Returned tt /\
   In (Ev (Git (git_track_all false)) (Demo.ab, Demo.result 1))
      (events (run_in Demo.bad_track_all)) /\
   count_calls is_merge_call (events (run_in Demo.bad_track_all)) = 1%nat).
Proof.
  vm_compute.
  repeat match goal with
         | |- _ /\ _ => split
         | |- _ = _ => reflexivity
         | |- _ \/ _ => first [left; reflexivity | right]
         end.
Qed.

(** C6, the code at an input where the claim fails: while [whence] is being
    updated, [git_reset origin/a] exits with status 1.  The run goes on to
    update [whither], to merge and to report, and returns normally. *)
Theorem failed_reset_of_whence_does_not_stop_the_run :
  let r := run (Demo.gateway Demo.bad_reset_whence)
               (merge_branches Demo.format_error "a" "b" false false false) 0%nat in
  In (Ev (Git (git_reset "origin/a")) (Demo.result 1)) (events r) /\
  outcome r = Returned tt /\
  started_syncs (events r) = ["a"; "b"] /\
  git_calls (events r) =
    [call (git_debugging false); call (git_config_set "merge.renameLimit" "999999");
     call (git_reset "HEAD"); call git_fetch; call (git_track_all false);
     call (git_checkout "a" true); call (git_reset "origin/a"); call (git_pull "a");
     call (git_checkout "b" true); call (git_reset "origin/b"); call (git_pull "b");
     call git_show_sha; call (git_merge "a"); call git_show_sha] /\
  In (stdout, "No change") (printed (events r)).
Proof.
  vm_compute.
  repeat match goal with
         | |- _ /\ _ => split
         | |- _ = _ => reflexivity
         | |- _ \/ _ => first [left; reflexivity | right]
         end.
Qed.

(** ** The order of the helper calls in a run *)

Lemma git_calls_cons {X : Type} (c : Cmd X) (x : X) (evs : list Event) :
  git_calls (Ev c x :: evs) =
  match call_of c with
  | Some a => a :: git_calls evs
  | None => git_calls evs
  end.
Proof. destruct c; reflexivity. Qed.

Lemma events_run_Vis {W A X : Type} (g : Gateway W) (c : Cmd X) (k : X -> Prog A) (w : W) :
  events (run g (Vis c k) w) =
  Ev c (fst (perform g c w))
    :: events (run g (k (fst (perform g c w))) (snd (perform g c w))).
Proof. reflexivity. Qed.

Lemma outcome_run_Vis {W A X : Type} (g : Gateway W) (c : Cmd X) (k : X -> Prog A) (w : W) :
  outcome (run g (Vis c k) w) =
  outcome (run g (k (fst (perform g c w))) (snd (perform g c w))).
Proof. reflexivity. Qed.

Lemma follows_run {W A : Type} (g : Gateway W) (done : list AnyCall -> Prop)
    (p : Prog A) :
  forall (l : list AnyCall) (w : W),
    follows done l p ->
    exists n, git_calls (events (run g p w)) = firstn n l /\
              (failed (outcome (run g p w)) = false -> done (skipn n l)).
Proof.
  induction p as [a|e|X c k IH]; intros l w H.
  - exists 0%nat. split; [reflexivity | intros _; exact H].
  - exists 0%nat. split; [reflexivity | discriminate].
  - rewrite events_run_Vis, outcome_run_Vis, git_calls_cons.
    cbn [follows] in H. destruct (call_of c) as [a|].
    + destruct l as [|a' l']; [contradiction|]. destruct H as [-> Hk].
      destruct (IH (fst (perform g c w)) l' (snd (perform g c w)) (Hk _)) as [n [Hn Hd]].
      exists (S n). split; [simpl; now rewrite Hn | exact Hd].
    + destruct (IH (fst (perform g c w)) l (snd (perform g c w)) (H _)) as [n [Hn Hd]].
      exists n. split; assumption.
Qed.

Lemma never_returns_run {W A : Type} (g : Gateway W) (p : Prog A) :
  never_returns p -> forall w, failed (outcome (run g p w)) = true.
Proof.
  induction p as [a|e|X c k IH]; intros H w; simpl in H.
  - contradiction.
  - reflexivity.
  - rewrite outcome_run_Vis. apply IH, H.
Qed.

Ltac paths_step :=
  match goal with
  | |- True => exact I
  | |- _ = _ => reflexivity
  | |- _ /\ _ => split
  | |- _ \/ _ => solve [left; reflexivity | right; reflexivity]
  | |- forall _, _ => intro
  | |- _ => progress cbn [follows never_returns call_of negb
                          bind trigger git print print_err enter]
  | |- _ => progress unfold check_error, report_failure, py_assert
  | |- context [if negb ?b then _ else _] => destruct b
  | |- context [if ?b then _ else _] => destruct b
  end.

Ltac paths_tac := repeat paths_step.

Lemma merge_branches_follows_protocol
    (format_error : ExecResult -> option string -> string)
    (whence whither : string) (do_push clean_branches debugging : bool) :
  follows only_show_left (protocol whence whither clean_branches debugging)
          (merge_branches format_error whence whither do_push clean_branches debugging).
Proof.
  unfold merge_branches, checkout_update_branch, protocol, only_show_left.
  paths_tac.
Qed.

Lemma merge_branches_never_returns_with_push
    (format_error : ExecResult -> option string -> string)
    (whence whither : string) (clean_branches debugging : bool) :
  never_returns (merge_branches format_error whence whither true clean_branches debugging).
Proof.
  unfold merge_branches, checkout_update_branch. paths_tac.
Qed.

(** X1: in every run of [merge_branches], whatever the helpers answer, the
    helper calls made are an initial part of the fixed sequence [protocol]:
    none is skipped, repeated or reordered, and [git_merge] is called at most
    once. *)
Theorem merge_branches_calls_in_order
    (format_error : ExecResult -> option string -> string)
    (W : Type) (g : Gateway W) (w : W) (whence whither : string)
    (do_push clean_branches debugging : bool) :
  let r := run g (merge_branches format_error whence whither
                    do_push clean_branches debugging) w in
  (exists n, git_calls (events r)
             = firstn n (protocol whence whither clean_branches debugging)) /\
  (count_calls is_merge_call (events r) <= 1)%nat.
Proof.
  intros r.
  destruct (follows_run g only_show_left _ _ w
              (merge_branches_follows_protocol format_error whence whither
                 do_push clean_branches debugging)) as [n [Hn _]].
  fold r in Hn. split; [exists n; exact Hn|].
  unfold count_calls. rewrite Hn. clear Hn.
  do 16 (destruct n as [|n]; [vm_compute; lia|]). vm_compute. lia.
Qed.

(** X2: a run of [merge_branches] that returns has made every call of the
    sequence, with or without the final [git_show], and so exactly one
    [git_merge]. *)
Theorem completed_merge_made_every_call
    (format_error : ExecResult -> option string -> string)
    (W : Type) (g : Gateway W) (w : W) (whence whither : string)
    (do_push clean_branches debugging : bool) :
  let r := run g (merge_branches format_error whence whither
                    do_push clean_branches debugging) w in
  outcome r = Returned tt ->
  (git_calls (events r) = protocol whence whither clean_branches debugging \/
   git_calls (events r) = removelast (protocol whence whither clean_branches debugging)) /\
  count_calls is_merge_call (events r) = 1%nat.
Proof.
  intros r Hret.
  destruct (follows_run g only_show_left _ _ w
              (merge_branches_follows_protocol format_error whence whither
                 do_push clean_branches debugging)) as [n [Hn Hd]].
  fold r in Hn, Hd. rewrite Hret in Hd. specialize (Hd eq_refl).
  assert (Hsplit := firstn_skipn n (protocol whence whither clean_branches debugging)).
  rewrite <- Hn in Hsplit.
  assert (Hcalls :
    git_calls (events r) = protocol whence whither clean_branches debugging \/
    git_calls (events r) = removelast (protocol whence whither clean_branches debugging)).
  { destruct Hd as [Hd|Hd]; rewrite Hd in Hsplit.
    - left. now rewrite app_nil_r in Hsplit.
    - right.
      change (protocol whence whither clean_branches debugging)
        with (removelast (protocol whence whither clean_branches debugging)
                ++ [call git_show])%list in Hsplit.
      apply app_inj_tail in Hsplit. destruct Hsplit as [Hsplit _]. exact Hsplit. }
  split; [exact Hcalls|].
  unfold count_calls. destruct Hcalls as [-> | ->]; reflexivity.
Qed.

Lemma completed_merge_made_every_call_witness :
  let r := run (Demo.gateway Demo.quiet)
               (merge_branches Demo.format_error "a" "b" false false false) 0%nat in
  outcome r = Returned tt /\
  (git_calls (events r) = protocol "a" "b" false false \/
   git_calls (events r) = removelast (protocol "a" "b" false false)) /\
  count_calls is_merge_call (events r) = 1%nat.
Proof.
  intros r.
  assert (H : outcome r = Returned tt) by reflexivity.
  split; [exact H|].
  exact (completed_merge_made_every_call Demo.format_error nat (Demo.gateway Demo.quiet)
           0%nat "a" "b" false false false H).
Defined.

(** X3: with [do_push] set, no run of [merge_branches] returns: whatever the
    helpers answer, the run ends in a failure. *)
Theorem merge_with_push_never_completes
    (format_error : ExecResult -> option string -> string)
    (W : Type) (g : Gateway W) (w : W) (whence whither : string)
    (clean_branches debugging : bool) :
  failed (outcome (run g (merge_branches format_error whence whither
                            true clean_branches debugging) w)) = true.
Proof.
  apply never_returns_run, merge_branches_never_returns_with_push.
Qed.

(** ** Failures come with their report *)

Lemma is_failure_block_run {W A : Type} (g : Gateway W) (msg : string) (p : Prog A)
    (w : W) :
  is_failure_block msg p ->
  run g p w = (Raised (AssertionError (Some msg)), w, failure_report msg).
Proof.
  unfold is_failure_block, failure_report.
  destruct p as [a|e|X c k]; simpl; try contradiction.
  destruct c as [f1 l1| |]; simpl; try contradiction.
  destruct f1; try contradiction. intros [-> H].
  destruct (k tt) as [a|e|X2 c2 k2]; simpl in *; try contradiction.
  destruct c2 as [f2 l2| |]; simpl in *; try contradiction.
  destruct f2; try contradiction. destruct H as [-> H].
  destruct (k2 tt) as [a|e|X3 c3 k3]; simpl in *; try contradiction.
  destruct c3 as [f3 l3| |]; simpl in *; try contradiction.
  destruct f3; try contradiction. destruct H as [-> H].
  rewrite H. reflexivity.
Qed.

Lemma well_reported_run {W A : Type} (g : Gateway W) (p : Prog A) :
  well_reported p ->
  forall (w : W) (msg : string),
    outcome (run g p w) = Raised (AssertionError (Some msg)) ->
    exists before, events (run g p w) = (before ++ failure_report msg)%list.
Proof.
  induction p as [a|e|X c k IH]; intros H w msg Hout.
  - discriminate Hout.
  - destruct e as [[m|]]; [contradiction | discriminate Hout].
  - destruct H as [[m Hb] | Hk].
    + rewrite (is_failure_block_run g m _ w Hb) in *.
      rewrite outcome_triple in Hout. injection Hout as ->.
      exists []. reflexivity.
    + rewrite outcome_run_Vis in Hout. rewrite events_run_Vis.
      destruct (IH _ (Hk _) _ _ Hout) as [before Hb].
      rewrite Hb. eexists (_ :: before). reflexivity.
Qed.

Ltac reported_step :=
  match goal with
  | |- True => exact I
  | |- forall _, _ => intro
  | |- (exists _, is_failure_block _ (Vis (Print stderr _) _)) \/ _ =>
      left; eexists; unfold is_failure_block;
      cbn [head_print as_print bind trigger print_err];
      repeat split; reflexivity
  | |- _ \/ _ => right
  | |- _ => progress cbn [well_reported negb
                          bind trigger git print print_err enter]
  | |- _ => progress unfold check_error, report_failure, py_assert
  | |- context [if negb ?b then _ else _] => destruct b
  | |- context [if ?b then _ else _] => destruct b
  end.

Lemma merge_branches_well_reported
    (format_error : ExecResult -> option string -> string)
    (whence whither : string) (do_push clean_branches debugging : bool) :
  well_reported (merge_branches format_error whence whither
                   do_push clean_branches debugging).
Proof.
  unfold merge_branches, checkout_update_branch. repeat reported_step.
Qed.

Lemma raises_only_run {W A : Type} (g : Gateway W) (ok : Exn -> bool) (p : Prog A) :
  raises_only ok p ->
  forall (w : W) (e : Exn), outcome (run g p w) = Raised e -> ok e = true.
Proof.
  induction p as [a|e0|X c k IH]; intros H w e Hout.
  - discriminate Hout.
  - injection Hout as <-. exact H.
  - rewrite outcome_run_Vis in Hout. exact (IH _ (H _) _ _ Hout).
Qed.

Ltac raises_step :=
  match goal with
  | |- True => exact I
  | |- _ = _ => reflexivity
  | |- forall _, _ => intro
  | |- _ => progress cbn [raises_only negb
                          bind trigger git print print_err enter]
  | |- _ => progress unfold check_error, report_failure, py_assert
  | |- context [if negb ?b then _ else _] => destruct b
  | |- context [if ?b then _ else _] => destruct b
  end.

Lemma merge_branches_raises_with_message
    (format_error : ExecResult -> option string -> string)
    (whence whither : string) (clean_branches debugging : bool) :
  raises_only has_message
    (merge_branches format_error whence whither false clean_branches debugging).
Proof.
  unfold merge_branches, checkout_update_branch. repeat raises_step.
Qed.

(** X4: when a run of [merge_branches] ends in [AssertionError(msg)], the
    last three steps of the run are the lines of [report_failure(msg)] on
    standard error and nothing is printed or called after them; without
    [do_push] every failure of [merge_branches] is of that kind. *)
Theorem merge_failure_is_reported_last
    (format_error : ExecResult -> option string -> string)
    (W : Type) (g : Gateway W) (w : W) (whence whither : string)
    (do_push clean_branches debugging : bool) (e : Exn) :
  let r := run g (merge_branches format_error whence whither
                    do_push clean_branches debugging) w in
  outcome r = Raised e ->
  (forall msg, e = AssertionError (Some msg) ->
     exists before, events r = (before ++ failure_report msg)%list) /\
  (do_push = false -> exists msg, e = AssertionError (Some msg)).
Proof.
  intros r Hout. split.
  - intros msg ->.
    exact (well_reported_run g _
             (merge_branches_well_reported format_error whence whither
                do_push clean_branches debugging) w msg Hout).
  - intros ->.
    assert (H := raises_only_run g has_message _
                   (merge_branches_raises_with_message format_error whence whither
                      clean_branches debugging) w e Hout).
    destruct e as [[msg|]]; [exists msg; reflexivity | discriminate H].
Qed.

Lemma merge_failure_is_reported_last_witness :
  let r := run (Demo.gateway Demo.stuck)
               (merge_branches Demo.format_error "a" "b" false false false) 0%nat in
  outcome r = Raised (AssertionError (Some "git failed")) /\
  (forall msg, AssertionError (Some "git failed") = AssertionError (Some msg) ->
     exists before, events r = (before ++ failure_report msg)%list) /\
  (false = false -> exists msg, AssertionError (Some "git failed") = AssertionError (Some msg)).
Proof.
  intros r.
  assert (H : outcome r = Raised (AssertionError (Some "git failed"))) by reflexivity.
  split; [exact H|].
  exact (merge_failure_is_reported_last Demo.format_error nat (Demo.gateway Demo.stuck)
           0%nat "a" "b" false false false _ H).
Defined.

(** ** Updating one branch *)

(** X5: when the forced checkout of [branch] exits with a non-zero status,
    [checkout_update_branch] reports [format_error] of that result and
    raises it; the checkout is its only helper call: the branch is neither
    reset to origin nor pulled. *)
Theorem failed_checkout_stops_the_update
    (format_error : ExecResult -> option string -> string)
    (W : Type) (g : Gateway W) (w : W) (branch : string) :
  ret (fst (g _ (git_checkout branch true) w)) <> 0%Z ->
  let co := g _ (git_checkout branch true) w in
  let msg := format_error (fst co) None in
  run g (checkout_update_branch format_error branch) w =
  (Raised (AssertionError (Some msg)), snd co,
   ([Ev (Enter (act_checkout_update_branch branch)) tt;
     Ev (Git (git_checkout branch true)) (fst co)] ++ failure_report msg)%list).
Proof.
  intros Hne co msg. rewrite run_checkout_update_branch. cbv zeta.
  apply Z.eqb_neq in Hne. rewrite Hne. reflexivity.
Qed.

Lemma failed_checkout_stops_the_update_witness :
  let g := Demo.gateway Demo.stuck in
  ret (fst (g _ (git_checkout "a" true) 0%nat)) <> 0%Z /\
  run g (checkout_update_branch Demo.format_error "a") 0%nat =
  (Raised (AssertionError (Some "git failed")), 0%nat,
   ([Ev (Enter (act_checkout_update_branch "a")) tt;
     Ev (Git (git_checkout "a" true)) (Demo.result 1)] ++ failure_report "git failed")%list).
Proof.
  intros g.
  assert (H : ret (fst (g _ (git_checkout "a" true) 0%nat)) <> 0%Z) by discriminate.
  split; [exact H|].
  exact (failed_checkout_stops_the_update Demo.format_error nat g 0%nat "a" H).
Defined.

(** X6: when the checkout succeeds, [checkout_update_branch] always goes on
    to reset the branch to [origin/<branch>] and to pull it, in that order and
    whatever status the reset answers; it returns exactly when the pull exits
    with status 0, and otherwise raises [format_error] of the pull's result
    with the conflicts joined by newlines. *)
Theorem update_is_decided_by_the_pull
    (format_error : ExecResult -> option string -> string)
    (W : Type) (g : Gateway W) (w : W) (branch : string) :
  ret (fst (g _ (git_checkout branch true) w)) = 0%Z ->
  let co := g _ (git_checkout branch true) w in
  let rs := g _ (git_reset ("origin/" ++ branch)) (snd co) in
  let pl := g _ (git_pull branch) (snd rs) in
  let r := run g (checkout_update_branch format_error branch) w in
  events r = ([Ev (Enter (act_checkout_update_branch branch)) tt;
               Ev (Git (git_checkout branch true)) (fst co);
               Ev (Git (git_reset ("origin/" ++ branch))) (fst rs);
               Ev (Git (git_pull branch)) (fst pl)]
              ++ (if (ret (snd (fst pl)) =? 0)%Z then []
                  else failure_report
                         (format_error (snd (fst pl))
                            (Some (Py.join Py.nl (fst (fst (fst pl)))))))) %list /\
  world r = snd pl /\
  outcome r = (if (ret (snd (fst pl)) =? 0)%Z then Returned tt
               else Raised (AssertionError
                              (Some (format_error (snd (fst pl))
                                       (Some (Py.join Py.nl (fst (fst (fst pl))))))))).
Proof.
  intros Hok co rs pl r. subst r. rewrite run_checkout_update_branch. cbv zeta.
  apply Z.eqb_eq in Hok. rewrite Hok. fold co. fold rs. fold pl.
  destruct (ret (snd (fst pl)) =? 0)%Z; repeat split.
Qed.

Lemma update_is_decided_by_the_pull_witness :
  let g := Demo.gateway Demo.bad_reset_origin in
  let r := run g (checkout_update_branch Demo.format_error "a") 0%nat in
  ret (fst (g _ (git_checkout "a" true) 0%nat)) = 0%Z /\
  events r = [Ev (Enter (act_checkout_update_branch "a")) tt;
              Ev (Git (git_checkout "a" true)) (Demo.result 0);
              Ev (Git (git_reset "origin/a")) (Demo.result 1);
              Ev (Git (git_pull "a")) ([], [], Demo.result 0)] /\
  world r = 0%nat /\
  outcome r = Returned tt.
Proof.
  intros g r.
  assert (H : ret (fst (g _ (git_checkout "a" true) 0%nat)) = 0%Z) by reflexivity.
  split; [exact H|].
  exact (update_is_decided_by_the_pull Demo.format_error nat g 0%nat "a" H).
Defined.

(** ** Failures of single steps of [merge_branches] *)

(** X7: when [git_config_set] exits with a non-zero status, [merge_branches]
    reports and raises [format_error] of that result after two helper calls
    (debugging, config): the working copy is not reset and nothing is
    fetched. *)
Theorem failed_config_stops_before_reset
    (format_error : ExecResult -> option string -> string)
    (W : Type) (g : Gateway W) (w : W) (whence whither : string)
    (do_push clean_branches debugging : bool) :
  let dbg := g _ (git_debugging debugging) w in
  let cfg := g _ (git_config_set "merge.renameLimit" "999999") (snd dbg) in
  let msg := format_error (fst cfg) None in
  ret (fst cfg) <> 0%Z ->
  run g (merge_branches format_error whence whither do_push clean_branches debugging) w =
  (Raised (AssertionError (Some msg)), snd cfg,
   (merge_branches_banner whence whither
      ++ [Ev (Git (git_debugging debugging)) (fst dbg);
          Ev (Git (git_config_set "merge.renameLimit" "999999")) (fst cfg)]
      ++ failure_report msg)%list).
Proof.
  intros dbg cfg msg Hne. apply Z.eqb_neq in Hne.
  apply merge_branches_setup_raised. unfold merge_branches_setup.
  cbn [bind enter print git trigger run perform fst snd].
  fold dbg. fold cfg. unfold check_error. rewrite Hne. reflexivity.
Qed.

Lemma failed_config_stops_before_reset_witness :
  let g := Demo.gateway (Demo.mkScenario
                           (fun a => match a with
                                     | call (git_config_set _ _) => 1%Z
                                     | call _ => 0%Z
                                     end) Demo.ab false) in
  ret (fst (g _ (git_config_set "merge.renameLimit" "999999")
              (snd (g _ (git_debugging false) 0%nat)))) <> 0%Z /\
  run g (merge_branches Demo.format_error "a" "b" false false false) 0%nat =
  (Raised (AssertionError (Some "git failed")), 0%nat,
   (merge_branches_banner "a" "b"
      ++ [Ev (Git (git_debugging false)) tt;
          Ev (Git (git_config_set "merge.renameLimit" "999999")) (Demo.result 1)]
      ++ failure_report "git failed")%list).
Proof.
  intros g.
  assert (H : ret (fst (g _ (git_config_set "merge.renameLimit" "999999")
                          (snd (g _ (git_debugging false) 0%nat)))) <> 0%Z)
    by discriminate.
  split; [exact H|].
  exact (failed_config_stops_before_reset Demo.format_error nat g 0%nat "a" "b"
           false false false H).
Defined.

(** X8: when the configuration succeeds and [git_fetch] exits with a non-zero
    status, [merge_branches] reports and raises [format_error] of the fetch
    after four helper calls (debugging, config, reset of HEAD, fetch):
    [git_track_all] is not called, so no local branch is cleaned, and no
    branch is checked out. *)
Theorem failed_fetch_stops_before_tracking
    (format_error : ExecResult -> option string -> string)
    (W : Type) (g : Gateway W) (w : W) (whence whither : string)
    (do_push clean_branches debugging : bool) :
  let dbg := g _ (git_debugging debugging) w in
  let cfg := g _ (git_config_set "merge.renameLimit" "999999") (snd dbg) in
  let rst := g _ (git_reset "HEAD") (snd cfg) in
  let fch := g _ git_fetch (snd rst) in
  let msg := format_error (fst fch) None in
  ret (fst cfg) = 0%Z ->
  ret (fst fch) <> 0%Z ->
  run g (merge_branches format_error whence whither do_push clean_branches debugging) w =
  (Raised (AssertionError (Some msg)), snd fch,
   (merge_branches_banner whence whither
      ++ [Ev (Git (git_debugging debugging)) (fst dbg);
          Ev (Git (git_config_set "merge.renameLimit" "999999")) (fst cfg);
          Ev (Git (git_reset "HEAD")) (fst rst);
          Ev (Git git_fetch) (fst fch)]
      ++ failure_report msg)%list).
Proof.
  intros dbg cfg rst fch msg Hok Hne.
  apply Z.eqb_eq in Hok. apply Z.eqb_neq in Hne.
  apply merge_branches_setup_raised. unfold merge_branches_setup.
  cbn [bind enter print git trigger run perform fst snd].
  fold dbg. fold cfg. unfold check_error. rewrite Hok.
  cbn [negb bind py_assert run perform fst snd].
  fold rst. fold fch. rewrite Hne. reflexivity.
Qed.

Lemma failed_fetch_stops_before_tracking_witness :
  let g := Demo.gateway (Demo.mkScenario
                           (fun a => match a with
                                     | call git_fetch => 1%Z
                                     | call _ => 0%Z
                                     end) Demo.ab false) in
  ret (fst (g _ (git_config_set "merge.renameLimit" "999999")
              (snd (g _ (git_debugging false) 0%nat)))) = 0%Z /\
  ret (fst (g _ git_fetch 0%nat)) <> 0%Z /\
  run g (merge_branches Demo.format_error "a" "b" false true false) 0%nat =
  (Raised (AssertionError (Some "git failed")), 0%nat,
   (merge_branches_banner "a" "b"
      ++ [Ev (Git (git_debugging false)) tt;
          Ev (Git (git_config_set "merge.renameLimit" "999999")) (Demo.result 0);
          Ev (Git (git_reset "HEAD")) (Demo.result 0);
          Ev (Git git_fetch) (Demo.result 1)]
      ++ failure_report "git failed")%list).
Proof.
  intros g.
  assert (Hok : ret (fst (g _ (git_config_set "merge.renameLimit" "999999")
                            (snd (g _ (git_debugging false) 0%nat)))) = 0%Z)
    by reflexivity.
  assert (Hne : ret (fst (g _ git_fetch 0%nat)) <> 0%Z) by discriminate.
  split; [exact Hok|]. split; [exact Hne|].
  exact (failed_fetch_stops_before_tracking Demo.format_error nat g 0%nat "a" "b"
           false true false Hok Hne).
Defined.

(** X9: in a run that has passed the checks and updated both branches, a
    [git_merge] that exits with a non-zero status ends the run at once: the
    failure raised and reported is [format_error] of the merge result with the
    conflicts joined by newlines, and nothing follows it, neither the second
    SHA nor the report. *)
Theorem failed_merge_reports_the_conflicts
    (format_error : ExecResult -> option string -> string)
    (W : Type) (g : Gateway W) (w w1 w2 : W) (whence whither : string)
    (do_push clean_branches debugging : bool)
    (sha_before : string) (evs1 evs2 : list Event) :
  run g (merge_branches_to_sync format_error whence whither clean_branches debugging) w
    = (Returned tt, w1, evs1) ->
  run g (merge_branches_update format_error whence whither) w1
    = (Returned sha_before, w2, evs2) ->
  ret (snd (fst (g _ (git_merge whence) w2))) <> 0%Z ->
  let merged := g _ (git_merge whence) w2 in
  let msg := format_error (snd (fst merged))
               (Some (Py.join Py.nl (fst (fst (fst merged))))) in
  run g (merge_branches format_error whence whither do_push clean_branches debugging) w =
  (Raised (AssertionError (Some msg)), snd merged,
   (evs1 ++ evs2 ++ [Ev (Git (git_merge whence)) (fst merged)]
      ++ failure_report msg)%list).
Proof.
  intros Hs Hu Hne merged msg. apply Z.eqb_neq in Hne. fold merged in Hne.
  rewrite (merge_branches_to_sync_returned format_error g _ _ do_push _ _ _ _ _ Hs).
  assert (Hf : run g (merge_branches_from_sync format_error whence whither do_push) w1
               = (Raised (AssertionError (Some msg)), snd merged,
                  (evs2 ++ [Ev (Git (git_merge whence)) (fst merged)]
                     ++ failure_report msg)%list)).
  { unfold merge_branches_from_sync, merge_branches_merge.
    rewrite !run_bind_assoc. rewrite (run_bind_returned g _ _ _ _ _ _ Hu).
    unfold merge_branches_do_merge.
    cbn [bind git trigger run perform fst snd].
    fold merged. unfold check_error. rewrite Hne. reflexivity. }
  rewrite Hf. reflexivity.
Qed.

Lemma failed_merge_reports_the_conflicts_witness :
  let g := Demo.gateway (Demo.mkScenario
                           (fun a => match a with
                                     | call (git_merge _) => 1%Z
                                     | call _ => 0%Z
                                     end) Demo.ab false) in
  let to_sync := merge_branches_to_sync Demo.format_error "a" "b" false false in
  let update := merge_branches_update Demo.format_error "a" "b" in
  run g to_sync 0%nat = (Returned tt, 0%nat, events (run g to_sync 0%nat)) /\
  run g update 0%nat = (Returned "sha0", 0%nat, events (run g update 0%nat)) /\
  ret (snd (fst (g _ (git_merge "a") 0%nat))) <> 0%Z /\
  run g (merge_branches Demo.format_error "a" "b" false false false) 0%nat =
  (Raised (AssertionError (Some "git failed: ")), 0%nat,
   (events (run g to_sync 0%nat) ++ events (run g update 0%nat)
      ++ [Ev (Git (git_merge "a")) ([], [], Demo.result 1)]
      ++ failure_report "git failed: ")%list).
Proof.
  intros g to_sync update.
  assert (Hs : run g to_sync 0%nat = (Returned tt, 0%nat, events (run g to_sync 0%nat)))
    by reflexivity.
  assert (Hu : run g update 0%nat = (Returned "sha0", 0%nat, events (run g update 0%nat)))
    by reflexivity.
  assert (Hne : ret (snd (fst (g _ (git_merge "a") 0%nat))) <> 0%Z) by discriminate.
  split; [exact Hs|]. split; [exact Hu|]. split; [exact Hne|].
  exact (failed_merge_reports_the_conflicts Demo.format_error nat g 0%nat 0%nat 0%nat
           "a" "b" false false false "sha0" _ _ Hs Hu Hne).
Defined.

(** ** More on the loop of [merge_up] *)

Section LoopFailure.

Variable format_error : ExecResult -> option string -> string.
Context {W : Type} (g : Gateway W).
Variables do_push clean_branches debugging : bool.

Lemma loop_raised (plan : list (string * string)) :
  forall (i : nat) (w w' : W) (e : Exn) (evs : list Event),
    run g (for_each (Py.enumerate_from i plan)
             (fun ibb => merge_branches format_error (fst (snd ibb)) (snd (snd ibb))
                           do_push clean_branches debugging)) w
      = (Raised e, w', evs) ->
    exists k b1 b2 wk before evs_m,
      nth_error plan k = Some (b1, b2) /\
      run g (merge_branches format_error b1 b2 do_push clean_branches debugging) wk
        = (Raised e, w', evs_m) /\
      evs = (before ++ evs_m)%list /\
      started_merges evs = firstn (S k) plan.
Proof.
  induction plan as [|[b1 b2] plan IH]; intros i w w' e evs H;
    cbn [Py.enumerate_from for_each] in H.
  - discriminate H.
  - rewrite run_bind in H. cbn [fst snd] in H.
    assert (Hm := merge_branches_started format_error g
                    do_push clean_branches debugging b1 b2 w).
    destruct (run g (merge_branches format_error b1 b2
                       do_push clean_branches debugging) w)
      as [[[[]|e1] w1] evs1] eqn:Hrun;
      rewrite ?outcome_triple, ?world_triple, ?events_triple in H;
      rewrite events_triple in Hm.
    + cbv zeta in H. rewrite (run_eta g) in H.
      rewrite ?outcome_triple, ?world_triple, ?events_triple in H.
      injection H as Ho Hw He.
      destruct (IH (S i) w1 w' e
                  (events (run g (for_each (Py.enumerate_from (S i) plan)
                     (fun ibb => merge_branches format_error (fst (snd ibb))
                                   (snd (snd ibb)) do_push clean_branches debugging))
                     w1)))
        as [k [c1 [c2 [wk [before [evs_m [Hk [Hr [He' Hs]]]]]]]]].
      { rewrite (run_eta g) at 1. now rewrite Ho, Hw. }
      exists (S k), c1, c2, wk, (evs1 ++ before)%list, evs_m.
      split; [exact Hk|]. split; [exact Hr|]. subst evs. split.
      * rewrite He' at 1. now rewrite app_assoc.
      * rewrite started_merges_app, Hm, Hs. reflexivity.
    + injection H as -> -> ->.
      exists 0%nat, b1, b2, w, [], evs.
      split; [reflexivity|]. split; [exact Hrun|]. split; [reflexivity|].
      rewrite Hm. reflexivity.
Qed.

Lemma loop_counts_merges (plan : list (string * string)) :
  forall (i : nat) (w : W),
    let r := run g (for_each (Py.enumerate_from i plan)
                      (fun ibb => merge_branches format_error (fst (snd ibb))
                                    (snd (snd ibb)) do_push clean_branches debugging)) w in
    failed (outcome r) = false ->
    count_calls is_merge_call (events r) = List.length plan.
Proof.
  induction plan as [|[b1 b2] plan IH]; intros i w;
    cbn [Py.enumerate_from for_each]; cbv zeta.
  - reflexivity.
  - rewrite run_bind. cbn [fst snd].
    assert (Hone : outcome (run g (merge_branches format_error b1 b2
                                     do_push clean_branches debugging) w) = Returned tt ->
                   count_calls is_merge_call
                     (events (run g (merge_branches format_error b1 b2
                                       do_push clean_branches debugging) w)) = 1%nat).
    { intros Hret.
      destruct (follows_run g only_show_left _ _ w
                  (merge_branches_follows_protocol format_error b1 b2
                     do_push clean_branches debugging)) as [n [Hn Hd]].
      rewrite Hret in Hd. specialize (Hd eq_refl).
      assert (Hsplit := firstn_skipn n (protocol b1 b2 clean_branches debugging)).
      unfold count_calls. rewrite Hn.
      destruct Hd as [Hd|Hd]; rewrite Hd in Hsplit.
      - rewrite app_nil_r in Hsplit. rewrite Hsplit. reflexivity.
      - change (protocol b1 b2 clean_branches debugging)
          with (removelast (protocol b1 b2 clean_branches debugging)
                  ++ [call git_show])%list in Hsplit at 2.
        apply app_inj_tail in Hsplit. destruct Hsplit as [Hsplit _].
        rewrite Hsplit. reflexivity. }
    destruct (outcome (run g (merge_branches format_error b1 b2
                                do_push clean_branches debugging) w)) as [[]|e1].
    + cbv zeta. rewrite outcome_triple, events_triple. intros Hok.
      rewrite count_calls_app, (Hone eq_refl), (IH _ _ Hok). reflexivity.
    + rewrite outcome_triple. discriminate.
Qed.

End LoopFailure.

(** X10: when [merge_up] fails, it fails in one of its planned merges: for
    some position [k] of the plan, the run ends in the very failure and state
    in which [merge_branches] of the pair at [k] ended, the pairs up to [k]
    were started in order and none after it; a failure with a message has its
    report as the last steps of the run. *)
Theorem merge_up_fails_where_a_merge_fails
    (format_error : ExecResult -> option string -> string)
    (W : Type) (g : Gateway W) (w w' : W) (branch_list : list string)
    (do_push clean_branches debugging : bool) (e : Exn) (evs : list Event) :
  run g (merge_up format_error branch_list do_push clean_branches debugging) w
    = (Raised e, w', evs) ->
  exists k b1 b2 wk before evs_m,
    nth_error (merge_list branch_list) k = Some (b1, b2) /\
    run g (merge_branches format_error b1 b2 do_push clean_branches debugging) wk
      = (Raised e, w', evs_m) /\
    evs = (merge_up_banner branch_list ++ before ++ evs_m)%list /\
    started_merges evs = firstn (S k) (merge_list branch_list) /\
    (forall msg, e = AssertionError (Some msg) ->
       exists before', evs = (before' ++ failure_report msg)%list).
Proof.
  intros H. rewrite run_merge_up in H. cbv zeta in H. unfold Py.enumerate in H.
  assert (Ho := f_equal outcome H). assert (Hw := f_equal world H).
  assert (He := f_equal events H). clear H.
  rewrite !outcome_triple in Ho. rewrite !world_triple in Hw.
  rewrite !events_triple in He.
  destruct (loop_raised format_error g do_push clean_branches debugging
              (merge_list branch_list) 0 w w' e
              (events (run g (for_each (Py.enumerate_from 0 (merge_list branch_list))
                 (fun ibb => merge_branches format_error (fst (snd ibb))
                               (snd (snd ibb)) do_push clean_branches debugging)) w)))
    as [k [b1 [b2 [wk [before [evs_m [Hk [Hr [He' Hs]]]]]]]]].
  { rewrite (run_eta g) at 1. now rewrite Ho, Hw. }
  exists k, b1, b2, wk, before, evs_m.
  split; [exact Hk|]. split; [exact Hr|]. subst evs. split; [|split].
  - now rewrite He' at 1.
  - rewrite started_merges_app. exact Hs.
  - intros msg ->.
    destruct (well_reported_run g _
                (merge_branches_well_reported format_error b1 b2
                   do_push clean_branches debugging) wk msg) as [before' Hb].
    { now rewrite Hr. }
    rewrite Hr, events_triple in Hb. rewrite He', Hb.
    exists (merge_up_banner branch_list ++ before ++ before')%list.
    now rewrite <- !app_assoc.
Qed.

Lemma merge_up_fails_where_a_merge_fails_witness :
  let g := Demo.gateway Demo.busy in
  let up := merge_up Demo.format_error ["a"; "b"; "c"] false false false in
  run g up 0%nat
    = (Raised (AssertionError (Some (msg_to_not_in "c" Demo.ab))), 1%nat,
       events (run g up 0%nat)) /\
  exists k b1 b2 wk before evs_m,
    nth_error (merge_list ["a"; "b"; "c"]) k = Some (b1, b2) /\
    run g (merge_branches Demo.format_error b1 b2 false false false) wk
      = (Raised (AssertionError (Some (msg_to_not_in "c" Demo.ab))), 1%nat, evs_m) /\
    events (run g up 0%nat) = (merge_up_banner ["a"; "b"; "c"] ++ before ++ evs_m)%list /\
    started_merges (events (run g up 0%nat)) = firstn (S k) (merge_list ["a"; "b"; "c"]) /\
    (forall msg, AssertionError (Some (msg_to_not_in "c" Demo.ab)) = AssertionError (Some msg) ->
       exists before', events (run g up 0%nat) = (before' ++ failure_report msg)%list).
Proof.
  intros g up.
  assert (H : run g up 0%nat
              = (Raised (AssertionError (Some (msg_to_not_in "c" Demo.ab))), 1%nat,
                 events (run g up 0%nat))) by reflexivity.
  split; [exact H|].
  exact (merge_up_fails_where_a_merge_fails Demo.format_error nat g 0%nat 1%nat
           ["a"; "b"; "c"] false false false _ _ H).
Defined.

Lemma merge_up_with_push_raised
    (format_error : ExecResult -> option string -> string)
    {W : Type} (g : Gateway W) (w : W) (b1 b2 : string) (rest : list string)
    (clean_branches debugging : bool) :
  let r := run g (merge_up format_error (b1 :: b2 :: rest) true
                    clean_branches debugging) w in
  failed (outcome r) = true /\ started_merges (events r) = [(b1, b2)].
Proof.
  intros r. subst r.
  assert (Hf := never_returns_run g _
                  (merge_branches_never_returns_with_push format_error b1 b2
                     clean_branches debugging) w).
  assert (Hm := merge_branches_started format_error g true clean_branches debugging
                  b1 b2 w).
  destruct (run g (merge_branches format_error b1 b2 true clean_branches debugging) w)
    as [[[[]|e] w1] evs1] eqn:Hrun; [discriminate Hf|].
  rewrite run_merge_up, merge_list_cons.
  cbn [Py.enumerate Py.enumerate_from for_each]. cbv zeta.
  rewrite (run_bind_raised g _ _ _ _ _ _ Hrun).
  rewrite outcome_triple, !events_triple, started_merges_app.
  rewrite events_triple in Hm. rewrite Hm. split; reflexivity.
Qed.

(** X11: with [do_push] set and at least two branches, [merge_up] always
    fails, and the only merge it starts is the first pair's: no later pair is
    ever reached. *)
Theorem merge_up_with_push_stops_in_first_merge
    (format_error : ExecResult -> option string -> string)
    (W : Type) (g : Gateway W) (w : W) (b1 b2 : string) (rest : list string)
    (clean_branches debugging : bool) :
  let r := run g (merge_up format_error (b1 :: b2 :: rest) true
                    clean_branches debugging) w in
  failed (outcome r) = true /\ started_merges (events r) = [(b1, b2)].
Proof. apply merge_up_with_push_raised. Qed.

(** X12: a run of [merge_up] that returns has called [git_merge] once for
    every planned pair, [n - 1] times for [n >= 1] branches; and it did not
    have [do_push] set unless the list had fewer than two branches. *)
Theorem completed_merge_up_merged_every_pair
    (format_error : ExecResult -> option string -> string)
    (W : Type) (g : Gateway W) (w : W) (branch_list : list string)
    (do_push clean_branches debugging : bool) :
  let r := run g (merge_up format_error branch_list do_push clean_branches debugging) w in
  failed (outcome r) = false ->
  count_calls is_merge_call (events r) = (List.length branch_list - 1)%nat /\
  (do_push = true -> (List.length branch_list < 2)%nat).
Proof.
  intros r Hok. split.
  - subst r. revert Hok. rewrite run_merge_up. cbv zeta. unfold Py.enumerate.
    rewrite outcome_triple, events_triple. intros Hok.
    rewrite count_calls_app.
    rewrite (loop_counts_merges format_error g do_push clean_branches debugging _ _ _ Hok).
    rewrite merge_list_length. reflexivity.
  - intros ->. destruct branch_list as [|b1 [|b2 rest]]; [simpl; lia | simpl; lia |].
    destruct (merge_up_with_push_raised format_error g w b1 b2 rest
                clean_branches debugging) as [Hf _].
    subst r. rewrite Hf in Hok. discriminate Hok.
Qed.

Lemma completed_merge_up_merged_every_pair_witness :
  let r := run (Demo.gateway Demo.chain)
               (merge_up Demo.format_error ["a"; "b"; "c"] false false false) 0%nat in
  failed (outcome r) = false /\
  count_calls is_merge_call (events r) = 2%nat /\
  (false = true -> (3 < 2)%nat).
Proof.
  intros r.
  assert (H : failed (outcome r) = false) by reflexivity.
  split; [exact H|].
  exact (completed_merge_up_merged_every_pair Demo.format_error nat
           (Demo.gateway Demo.chain) 0%nat ["a"; "b"; "c"] false false false H).
Defined.

(** ** Edge cases of the command line *)




Lemma empty_name_run
    (format_error : ExecResult -> option string -> string)
    {W : Type} (g : Gateway W) (w : W) (whence whither : string)
    (do_push clean_branches debugging : bool) :
  whence = EmptyString \/ whither = EmptyString ->
  let r := run g (merge_branches format_error whence whither
                    do_push clean_branches debugging) w in
  failed (outcome r) = true /\
  forallb is_setup_call (git_calls (events r)) = true.
Proof.
  intros Hempty r.
  assert (Hcalls := setup_events_calls format_error g whence whither
                      clean_branches debugging w).
  assert (Hfalse : Py.truthy whence && Py.truthy whither = false).
  { destruct Hempty as [-> | ->]; simpl; [reflexivity | apply andb_false_r]. }
  destruct (run g (merge_branches_setup format_error whence whither
                     clean_branches debugging) w) as [[[bl|e] w1] evs1] eqn:Hs.
  - assert (Hr : r = (Raised (AssertionError (Some (msg_branches_required whence whither))),
                      w1, (evs1 ++ failure_report (msg_branches_required whence whither))%list)).
    { subst r. eapply merge_branches_check_fails; [exact Hs|].
      rewrite run_checks, Hfalse. reflexivity. }
    rewrite Hr, outcome_triple, events_triple. split; [reflexivity|].
    rewrite git_calls_app, git_calls_failure_report, app_nil_r.
    rewrite events_triple in Hcalls. exact Hcalls.
  - assert (Hr : r = (Raised e, w1, evs1)).
    { subst r. now apply merge_branches_setup_raised. }
    rewrite Hr, outcome_triple, events_triple. split; [reflexivity|].
    rewrite events_triple in Hcalls. exact Hcalls.
Qed.

(** X14: without [--up] and with [--from] or [--to] left out (or empty),
    [main] always fails; after [lowpriority] it makes only setup calls
    (debugging, config, reset of HEAD, fetch, track): no branch is checked
    out, pulled or merged. *)
Theorem missing_from_or_to_fails_after_setup
    (format_error : ExecResult -> option string -> string)
    (W : Type) (g : Gateway W) (w : W) (opts : options.t) :
  options.branch_list_str opts = EmptyString ->
  options.whence opts = EmptyString \/ options.whither opts = EmptyString ->
  let r := run g (main format_error opts) w in
  failed (outcome r) = true /\
  exists calls,
    git_calls (events r) = call lowpriority :: calls /\
    forallb is_setup_call calls = true.
Proof.
  intros Hup Hempty r. subst r. unfold main. rewrite Hup.
  cbn [bind git trigger Py.truthy].
  rewrite outcome_run_Vis, events_run_Vis.
  destruct (empty_name_run format_error g (snd (perform g (Git lowpriority) w))
              (options.whence opts) (options.whither opts) (options.do_push opts)
              (options.clean_branches opts) (options.debugging opts) Hempty)
    as [Hf Hc].
  split; [exact Hf|]. eexists. split; [reflexivity | exact Hc].
Qed.

Lemma missing_from_or_to_fails_after_setup_witness :
  let opts := options.mk false false false "b" EmptyString EmptyString in
  let r := run (Demo.gateway Demo.quiet) (main Demo.format_error opts) 0%nat in
  options.branch_list_str opts = EmptyString /\
  (options.whence opts = EmptyString \/ options.whither opts = EmptyString) /\
  failed (outcome r) = true /\
  exists calls,
    git_calls (events r) = call lowpriority :: calls /\
    forallb is_setup_call calls = true.
Proof.
  intros opts r.
  assert (Hempty : options.whence opts = EmptyString \/ options.whither opts = EmptyString)
    by (left; reflexivity).
  split; [reflexivity|]. split; [exact Hempty|].
  exact (missing_from_or_to_fails_after_setup Demo.format_error nat
           (Demo.gateway Demo.quiet) 0%nat opts eq_refl Hempty).
Defined.
